(** * pgmixnode: the mixnet relay driver of [main.py]

    A shallow embedding of [Mixnet] (registry initialisation, route
    selection, packet construction, the per-hop relay loop) and of the
    [/mix] request handler, with the sphinxmix primitives taken as an
    interface. *)

From Stdlib Require Import ZArith String Ascii List Lia Permutation.
From stdpp Require Import gmap strings list fin_maps pretty.

Open Scope Z_scope.
Open Scope string_scope.

(** ** Python exceptions, results and the effect monad *)

(** The exception classes that occur in [main.py] and its collaborators.
    All of them derive from [Exception], so [except Exception] catches
    every one. *)
Inductive exc_class :=
| PyException | RuntimeError | KeyError | IndexError | AttributeError
| TypeError | UnicodeEncodeError | UnicodeDecodeError | JSONDecodeError
| SphinxException.

Definition class_name (c : exc_class) : string :=
  match c with
  | PyException => "Exception"
  | RuntimeError => "RuntimeError"
  | KeyError => "KeyError"
  | IndexError => "IndexError"
  | AttributeError => "AttributeError"
  | TypeError => "TypeError"
  | UnicodeEncodeError => "UnicodeEncodeError"
  | UnicodeDecodeError => "UnicodeDecodeError"
  | JSONDecodeError => "JSONDecodeError"
  | SphinxException => "SphinxException"
  end.

(** An exception object: its class and [str(e)], the text an f-string
    interpolates. *)
Record exn := Exn { exn_class : exc_class; exn_str : string }.

(** What a library call gives back: a value, or a raised exception. *)
Inductive result (A : Type) :=
| Ok (a : A)
| Err (e : exn).
Arguments Ok {A} a.
Arguments Err {A} e.

(** What a computation of the program gives back.  [OutOfFuel] stands for
    a [while True] loop that is still iterating when the step budget of the
    model is used up; it is not an exception and no [except] clause sees
    it. *)
Inductive outcome (A : Type) :=
| Return (a : A)
| Raise (e : exn)
| OutOfFuel.
Arguments Return {A} a.
Arguments Raise {A} e.
Arguments OutOfFuel {A}.

(** The state outside the objects of one request: how many random draws the
    process has made so far, and what has been printed on standard
    output. *)
Record world := World { cursor : nat; stdout : list string }.

Definition advance (w : world) : world :=
  {| cursor := S (cursor w); stdout := stdout w |}.

Definition emit (line : string) (w : world) : world :=
  {| cursor := cursor w; stdout := stdout w ++ [line] |}.

(** [n] draws later. *)
Fixpoint advance_by (n : nat) (w : world) : world :=
  match n with
  | O => w
  | S n' => advance_by n' (advance w)
  end.

Definition M (A : Type) : Type := world -> outcome A * world.

Definition ret {A} (a : A) : M A := fun w => (Return a, w).

Definition raise {A} (e : exn) : M A := fun w => (Raise e, w).

Definition bind {A B} (m : M A) (k : A -> M B) : M B :=
  fun w =>
    match m w with
    | (Return a, w') => k a w'
    | (Raise e, w') => (Raise e, w')
    | (OutOfFuel, w') => (OutOfFuel, w')
    end.

Definition lift {A} (r : result A) : M A :=
  match r with
  | Ok a => ret a
  | Err e => raise e
  end.

(** [try: m except Exception as e: h e] *)
Definition try_except {A} (m : M A) (h : exn -> M A) : M A :=
  fun w =>
    match m w with
    | (Raise e, w') => h e w'
    | r => r
    end.

(** [print(line)] *)
Definition print (line : string) : M unit :=
  fun w => (Return tt, emit line w).

Declare Scope py_scope.
Delimit Scope py_scope with py.
Notation "x <~ m ;; k" := (bind m (fun x => k))
  (at level 100, m at next level, right associativity) : py_scope.
Notation "m ;;; k" := (bind m (fun _ => k))
  (at level 100, right associativity) : py_scope.
Open Scope py_scope.

(** ** Python text

    A [bytes] value is a byte string.  A [str] is represented by a byte
    string as well: its UTF-8 encoding when it has one; a byte string that
    is not valid UTF-8 stands for a [str] without an encoding (one that
    holds a lone surrogate).  So [s.encode()] and [b.decode()] keep the
    representation and fail exactly on the byte strings that are not
    UTF-8. *)

Inductive utf8_state := U0 | U1 | U2 | U3 | UE0 | UED | UF0 | UF4.

Definition between (lo hi b : N) : bool := ((lo <=? b) && (b <=? hi))%N.

Definition utf8_step (s : utf8_state) (b : N) : option utf8_state :=
  match s with
  | U0 =>
      if (b <? 128)%N then Some U0
      else if between 194 223 b then Some U1
      else if (b =? 224)%N then Some UE0
      else if between 225 236 b then Some U2
      else if (b =? 237)%N then Some UED
      else if between 238 239 b then Some U2
      else if (b =? 240)%N then Some UF0
      else if between 241 243 b then Some U3
      else if (b =? 244)%N then Some UF4
      else None
  | U1 => if between 128 191 b then Some U0 else None
  | U2 => if between 128 191 b then Some U1 else None
  | U3 => if between 128 191 b then Some U2 else None
  | UE0 => if between 160 191 b then Some U1 else None
  | UED => if between 128 159 b then Some U1 else None
  | UF0 => if between 144 191 b then Some U2 else None
  | UF4 => if between 128 143 b then Some U2 else None
  end.

Fixpoint utf8_run (s : utf8_state) (b : string) : bool :=
  match b with
  | EmptyString => match s with U0 => true | _ => false end
  | String a rest =>
      match utf8_step s (N_of_ascii a) with
      | Some s' => utf8_run s' rest
      | None => false
      end
  end.

Definition utf8_valid (b : string) : bool := utf8_run U0 b.

(** [s.encode()] on a [str].  The text of the error is abridged: Python's
    also names the character and its position. *)
Definition str_encode (s : string) : result string :=
  if utf8_valid s then Ok s
  else Err (Exn UnicodeEncodeError
                "'utf-8' codec can't encode character: surrogates not allowed").

(** [b.decode()] on a [bytes].  The text of the error is abridged:
    Python's also names the byte and its position. *)
Definition bytes_decode (b : string) : result string :=
  if utf8_valid b then Ok b
  else Err (Exn UnicodeDecodeError "'utf-8' codec can't decode bytes").

(** ** Python values that cross the HTTP boundary *)

#[warnings="-register-all"]
Inductive pyval :=
| PNone
| PBool (b : bool)
| PInt (z : Z)
| PStr (s : string)
| PList (items : list pyval)
| PDict (items : list (string * pyval))
| PExc (e : exn).

Definition type_name (v : pyval) : string :=
  match v with
  | PNone => "NoneType"
  | PBool _ => "bool"
  | PInt _ => "int"
  | PStr _ => "str"
  | PList _ => "list"
  | PDict _ => "dict"
  | PExc e => class_name (exn_class e)
  end.

Definition no_attribute (v : pyval) (attr : string) : exn :=
  Exn AttributeError
      ("'" ++ type_name v ++ "' object has no attribute '" ++ attr ++ "'").

(** [v.encode()]: only a [str] has the method. *)
Definition py_encode (v : pyval) : result string :=
  match v with
  | PStr s => str_encode s
  | _ => Err (no_attribute v "encode")
  end.

Fixpoint assoc (key : string) (items : list (string * pyval)) : option pyval :=
  match items with
  | [] => None
  | (k, v) :: rest => if String.eqb k key then Some v else assoc key rest
  end.

(** [v.get(key)]: a dict answers with the value or [None]. *)
Definition py_get (v : pyval) (key : string) : result pyval :=
  match v with
  | PDict items => Ok (default PNone (assoc key items))
  | _ => Err (no_attribute v "get")
  end.

(** What [json.dumps] cannot render: the first value that is not a JSON
    value, if there is one.  An exception object is not. *)
Fixpoint json_offender (v : pyval) : option pyval :=
  match v with
  | PExc _ => Some v
  | PList items =>
      (fix go (l : list pyval) : option pyval :=
         match l with
         | [] => None
         | i :: rest =>
             match json_offender i with Some o => Some o | None => go rest end
         end) items
  | PDict items =>
      (fix go (l : list (string * pyval)) : option pyval :=
         match l with
         | [] => None
         | (_, i) :: rest =>
             match json_offender i with Some o => Some o | None => go rest end
         end) items
  | _ => None
  end.

(** A response of the HTTP layer. *)
Record Response := { content : pyval; status_code : Z }.

(** [JSONResponse(content, status_code=...)].  Starlette renders the body
    when the response object is constructed, with [json.dumps]; a content
    that holds something that is not a JSON value makes the constructor
    raise [TypeError]. *)
Definition JSONResponse (c : pyval) (status : Z) : result Response :=
  match json_offender c with
  | None => Ok {| content := c; status_code := status |}
  | Some o =>
      Err (Exn TypeError
               ("Object of type " ++ type_name o ++ " is not JSON serializable"))
  end.

(** ** The sphinxmix interface

    The primitives [main.py] imports from sphinxmix.  They are not part of
    this repository: the model takes them as an interface.  The random
    choices of the library are made explicit: a function that draws
    randomness receives the index of the draw. *)

(** What [PFdecode] decodes: [routing[0]] is [Relay_flag] (then
    [routing[1]] names the next node), [Dest_flag], or another flag. *)
Inductive Routing :=
| Relay (addr : Z)
| Dest
| OtherFlag.

Class SphinxLib := {
  secret : Type;
  element : Type;
  node_name : Type;
  header : Type;
  delta : Type;
  mac_key : Type;
  info : Type;
  tag : Type;
  (** [SphinxParams()]: building the parameters of the library, which can
      fail; the functions below are those of the parameters it builds *)
  SphinxParams : result unit;
  (** [params.group.gensecret()], at the given draw *)
  gensecret : nat -> result secret;
  (** [params.group.expon(params.group.g, [x])] *)
  expon_g : secret -> result element;
  (** the random order [rand_subset] puts a list in, at the given draw *)
  shuffle : nat -> list Z -> list Z;
  Nenc : Z -> node_name;
  (** [create_forward_message(params, nodes, keys, dest, msg)], at the
      given draw *)
  create_forward_message :
    nat -> list node_name -> list element -> string -> string ->
    result (header * delta);
  (** [sphinx_process(params, x, header, delta)]: the tuple
      [(tag, info, (header, delta), mac_key)]; [x] is the [x] field of a
      pki entry, [None] in a public one *)
  sphinx_process :
    option secret -> header -> delta ->
    result (tag * info * (header * delta) * mac_key);
  PFdecode : info -> result Routing;
  (** [receive_forward(params, mac_key, delta)]: [(dest, message)] *)
  receive_forward : mac_key -> delta -> result (string * string);
  (** whether a destination and a message fit the payload of a packet *)
  payload_fits : string -> string -> bool
}.

(** The two lines a send prints: the f-strings of [send_message] and
    [_process_message]. *)
Definition created_line (dest : string) : string :=
  "Message created for destination '" ++ dest ++ "'.".

Definition received_line (d m : string) : string :=
  "Message received at destination '" ++ d ++ "': " ++ m.

Module Mixnet.
Section WithLib.
Context {lib : SphinxLib}.

(** sphinxmix's [pki_entry] named tuple [(id, x, y)]; [x] is [None] in a
    public entry. *)
Record PkiEntry := pki_entry {
  pki_id : Z;
  pki_x : option secret;
  pki_y : element
}.

(** A [Mixnet] object: its two dictionaries. *)
Record t := Build {
  pkiPriv : gmap Z PkiEntry;
  pkiPub : gmap Z PkiEntry
}.

(** [d[k]] *)
Definition getitem (d : gmap Z PkiEntry) (k : Z) : M PkiEntry :=
  match d !! k with
  | Some e => ret e
  | None => raise (Exn KeyError (pretty k))
  end.

(** [d.keys()].  The order of the keys is the map's, not the order of
    insertion of a Python dict; the only reader, [rand_subset], puts the
    list in a random order of its own. *)
Definition keys (d : gmap Z PkiEntry) : list Z := (map_to_list d).*1.

(** [self.params.group.gensecret()] *)
Definition draw_secret : M secret :=
  fun w =>
    match gensecret (cursor w) with
    | Ok s => (Return s, advance w)
    | Err e => (Raise e, advance w)
    end.

(** The body of the [for i in range(num_nodes)] loop, over the ids that
    are left. *)
Fixpoint initialize_loop (ids : list Z) (self : t) : M t :=
  match ids with
  | [] => ret self
  | nid :: rest =>
      secret_key <~ draw_secret ;;
      public_key <~ lift (expon_g secret_key) ;;
      initialize_loop rest
        {| pkiPriv := <[nid := pki_entry nid (Some secret_key) public_key]> (pkiPriv self);
           pkiPub := <[nid := pki_entry nid None public_key]> (pkiPub self) |}
  end.

Definition _initialize_nodes (self : t) (num_nodes : Z) : M t :=
  try_except (initialize_loop (seqZ 0 num_nodes) self)
    (fun e => raise (Exn PyException ("Error initializing nodes: " ++ exn_str e))).

(** [Mixnet(num_nodes)]; [None] is the call without the argument. *)
Definition __init__ (num_nodes : option Z) : M t :=
  try_except
    (params <~ lift SphinxParams ;;
     _initialize_nodes {| pkiPriv := ∅; pkiPub := ∅ |} (default 10 num_nodes))
    (fun e => raise (Exn RuntimeError ("Error initializing Mixnet: " ++ exn_str e))).

(** sphinxmix's [rand_subset(lst, nu)], which [send_message] calls: the
    library puts the list in a random order (it sorts on fresh random keys)
    and returns the slice of the first [nu] elements; the slice of a shorter
    list is the whole list. *)
Definition rand_subset (lst : list Z) (nu : nat) : M (list Z) :=
  fun w => (Return (take nu (shuffle (cursor w) lst)), advance w).

(** [[self.pkiPub[n].y for n in use_nodes]] *)
Fixpoint keys_of (pub : gmap Z PkiEntry) (use_nodes : list Z) : M (list element) :=
  match use_nodes with
  | [] => ret []
  | n :: rest =>
      e <~ getitem pub n ;;
      ys <~ keys_of pub rest ;;
      ret (pki_y e :: ys)
  end.

(** Steps 1 and 2 of [send_message]: the route and the packet. *)
Definition build_packet (self : t) (message : pyval) (dest : string)
  : M (list Z * (header * delta)) :=
  use_nodes <~ rand_subset (keys (pkiPub self)) 5 ;;
  let nodes_routing := Nenc <$> use_nodes in
  keys_nodes <~ keys_of (pkiPub self) use_nodes ;;
  d <~ lift (str_encode dest) ;;
  m <~ lift (py_encode message) ;;
  packet <~ (fun w =>
               lift (create_forward_message (cursor w) nodes_routing keys_nodes d m)
                 (advance w)) ;;
  print (created_line dest) ;;;
  ret (use_nodes, packet).

(** The relay driver.  A state is the private key and the packet the next
    iteration of the [while True] loop works on, or the way the loop was
    left. *)
Inductive driver_state :=
| AwaitingHop (x : option secret) (packet : header * delta)
| Delivered (message : string)
| Failed (e : exn).

(** One iteration of the loop. *)
Definition hop_body (self : t) (x : option secret) (packet : header * delta)
  : M driver_state :=
  ret_ <~ lift (sphinx_process x (fst packet) (snd packet)) ;;
  let '(_, inf, packet', mac) := ret_ in
  routing <~ lift (PFdecode inf) ;;
  match routing with
  | Relay addr =>
      e <~ getitem (pkiPriv self) addr ;;
      ret (AwaitingHop (pki_x e) packet')
  | Dest =>
      r <~ lift (receive_forward mac (snd packet')) ;;
      let '(dest, received_message) := r in
      d <~ lift (bytes_decode dest) ;;
      m <~ lift (bytes_decode received_message) ;;
      print (received_line d m) ;;;
      m' <~ lift (bytes_decode received_message) ;;
      ret (Delivered m')
  | OtherFlag => ret (AwaitingHop x packet')
  end.

(** The state one iteration leaves: an exception raised in the loop body
    ends the loop. *)
Definition hop (self : t) (x : option secret) (packet : header * delta)
  (w : world) : driver_state * world :=
  match hop_body self x packet w with
  | (Return st, w') => (st, w')
  | (Raise e, w') => (Failed e, w')
  | (OutOfFuel, w') => (AwaitingHop x packet, w')
  end.

(** At most [fuel] iterations of the loop. *)
Fixpoint drive (fuel : nat) (self : t) (st : driver_state) (w : world)
  : driver_state * world :=
  match st, fuel with
  | AwaitingHop x packet, S fuel' =>
      let '(st', w') := hop self x packet w in drive fuel' self st' w'
  | _, _ => (st, w)
  end.

(** The number of iterations [drive] runs. *)
Fixpoint hop_count (fuel : nat) (self : t) (st : driver_state) (w : world) : nat :=
  match st, fuel with
  | AwaitingHop x packet, S fuel' =>
      let '(st', w') := hop self x packet w in S (hop_count fuel' self st' w')
  | _, _ => 0%nat
  end.

Definition is_terminal (st : driver_state) : bool :=
  match st with
  | AwaitingHop _ _ => false
  | _ => true
  end.

(** [use_nodes[0]] *)
Definition first_node (use_nodes : list Z) : M Z :=
  match use_nodes with
  | n :: _ => ret n
  | [] => raise (Exn IndexError "list index out of range")
  end.

Definition _process_message (fuel : nat) (self : t)
  (hdr : header) (dlt : delta) (use_nodes : list Z) : M string :=
  try_except
    (n <~ first_node use_nodes ;;
     e <~ getitem (pkiPriv self) n ;;
     fun w =>
       match drive fuel self (AwaitingHop (pki_x e) (hdr, dlt)) w with
       | (Delivered m, w') => (Return m, w')
       | (Failed err, w') => (Raise err, w')
       | (AwaitingHop _ _, w') => (OutOfFuel, w')
       end)
    (fun e => raise (Exn PyException ("Error processing message: " ++ exn_str e))).

Definition send_message (fuel : nat) (self : t) (message : pyval) (dest : string)
  : M string :=
  try_except
    (r <~ build_packet self message dest ;;
     let '(use_nodes, (hdr, dlt)) := r in
     _process_message fuel self hdr dlt use_nodes)
    (fun e => raise (Exn PyException ("Error sending message: " ++ exn_str e))).

End WithLib.
End Mixnet.

(** ** The [/mix] endpoint *)

(** A request, as far as the handler looks at it: what
    [await request.json()] gives, a parsed body or the parser's
    exception. *)
Record Request := { request_json : result pyval }.

(** [if received_message:] on a [str] *)
Definition truthy (s : string) : bool :=
  match s with
  | EmptyString => false
  | _ => true
  end.

Section Endpoint.
Context {lib : SphinxLib}.

(** The statements of the handler's [try] block up to [mixnet = Mixnet()]. *)
Definition mix_setup (request : Request) : M (pyval * Mixnet.t) :=
  data <~ lift (request_json request) ;;
  message <~ lift (py_get data "message") ;;
  mixnet <~ Mixnet.__init__ None ;;
  ret (message, mixnet).

Definition mix_incoming_messages (fuel : nat) (request : Request) : M Response :=
  try_except
    (s <~ mix_setup request ;;
     let '(message, mixnet) := s in
     let destination := "destination_node" in
     received_message <~ Mixnet.send_message fuel mixnet message destination ;;
     if truthy received_message
     then lift (JSONResponse (PDict [("data", PStr received_message)]) 200)
     else lift (JSONResponse (PDict [("data", PStr "Failed to mix message!")]) 200))
    (fun e => lift (JSONResponse (PDict [("data", PExc e)]) 200)).


End Endpoint.

(** ** A small instance of the interface

    Keys are integers, a header is the list of the layers that are left
    (the public key a layer is sealed for, and its routing command), and
    the payload travels in the clear.  It serves to run the model. *)
Module Toy.

Definition seal (x : Z) : Z := 2 * x + 1.

Fixpoint layers (route : list Z) (ys : list Z) : list (Z * Routing) :=
  match route, ys with
  | n :: route', y :: ys' =>
      (y, match route' with [] => Dest | n' :: _ => Relay n' end) :: layers route' ys'
  | _, _ => []
  end.

Definition create (route : list Z) (ys : list Z) (dest msg : string)
  : result (list (Z * Routing) * (string * string)) :=
  if (length route =? length ys)%nat && (1 <=? length route)%nat
     && (length route <=? 5)%nat && (String.length dest + String.length msg <=? 1000)%nat
  then Ok (layers route ys, (dest, msg))
  else Err (Exn SphinxException "cannot build the packet").

Definition process (x : option Z) (hdr : list (Z * Routing)) (dlt : string * string)
  : result (unit * Routing * (list (Z * Routing) * (string * string)) * unit) :=
  match x, hdr with
  | Some s, (y, cmd) :: rest =>
      if (seal s =? y)%Z then Ok (tt, cmd, (rest, dlt), tt)
      else Err (Exn SphinxException "MAC mismatch")
  | _, _ => Err (Exn SphinxException "MAC mismatch")
  end.

Definition order (c : nat) (l : list Z) : list Z :=
  if Nat.even c then reverse l else l.

#[local] Instance lib : SphinxLib := {|
  secret := Z;
  element := Z;
  node_name := Z;
  header := list (Z * Routing);
  delta := string * string;
  mac_key := unit;
  info := Routing;
  tag := unit;
  SphinxParams := Ok tt;
  gensecret := fun i => Ok (Z.of_nat i + 1);
  expon_g := fun x => Ok (seal x);
  shuffle := order;
  Nenc := fun n => n;
  create_forward_message := fun _ => create;
  sphinx_process := process;
  PFdecode := fun i => Ok i;
  receive_forward := fun _ d => Ok d;
  payload_fits := fun d m => (String.length d + String.length m <=? 1000)%nat
|}.

(** The same, with a peel that answers [Relay 0] on every packet. *)
Definition spin : SphinxLib := {|
  secret := Z;
  element := Z;
  node_name := Z;
  header := list (Z * Routing);
  delta := string * string;
  mac_key := unit;
  info := Routing;
  tag := unit;
  SphinxParams := Ok tt;
  gensecret := fun i => Ok (Z.of_nat i + 1);
  expon_g := fun x => Ok (seal x);
  shuffle := order;
  Nenc := fun n => n;
  create_forward_message := fun _ => create;
  sphinx_process := fun _ h d => Ok (tt, Relay 0, (h, d), tt);
  PFdecode := fun i => Ok i;
  receive_forward := fun _ d => Ok d;
  payload_fits := fun d m => (String.length d + String.length m <=? 1000)%nat
|}.

Definition w0 : world := {| cursor := 0; stdout := [] |}.

(** The registry [Mixnet(n)] builds in a world, and from the first draws. *)
Definition mixnet_at (l : SphinxLib) (n : Z) (w : world) : @Mixnet.t l :=
  match @Mixnet.__init__ l (Some n) w with
  | (Return m, _) => m
  | _ => {| Mixnet.pkiPriv := ∅; Mixnet.pkiPub := ∅ |}
  end.

Definition mixnet (l : SphinxLib) (n : Z) : @Mixnet.t l := mixnet_at l n w0.

Arguments mixnet_at : simpl never.
Arguments mixnet : simpl never.



(** The world after [Mixnet(n)]. *)
Definition after (n : Z) : world := advance_by (Z.to_nat n) w0.

(** The driver about to peel a packet for "hello" with private key [x],
    under each of the two instances. *)
Definition at_hop (x : Z) (hdr : list (Z * Routing)) : @Mixnet.driver_state lib :=
  Mixnet.AwaitingHop (Some x) (hdr, ("destination_node", "hello")).

Definition spin_at_hop (x : Z) (hdr : list (Z * Routing)) : @Mixnet.driver_state spin :=
  @Mixnet.AwaitingHop spin (Some x) (hdr, ("destination_node", "hello")).

End Toy.

(** ** Faulty instances

    The small instance with a random source that fails at its fourth
    draw, with parameters that cannot be built, and with a random source
    that repeats itself. *)
Module Faulty.

Definition dry : SphinxLib := {|
  secret := Z;
  element := Z;
  node_name := Z;
  header := list (Z * Routing);
  delta := string * string;
  mac_key := unit;
  info := Routing;
  tag := unit;
  SphinxParams := Ok tt;
  gensecret := fun i =>
    if (i =? 3)%nat then Err (Exn SphinxException "no entropy")
    else Ok (Z.of_nat i + 1);
  expon_g := fun x => Ok (Toy.seal x);
  shuffle := Toy.order;
  Nenc := fun n => n;
  create_forward_message := fun _ => Toy.create;
  sphinx_process := Toy.process;
  PFdecode := fun i => Ok i;
  receive_forward := fun _ d => Ok d;
  payload_fits := fun d m => (String.length d + String.length m <=? 1000)%nat
|}.

(** Parameters that cannot be built. *)
Definition noparams : SphinxLib := {|
  secret := Z;
  element := Z;
  node_name := Z;
  header := list (Z * Routing);
  delta := string * string;
  mac_key := unit;
  info := Routing;
  tag := unit;
  SphinxParams := Err (Exn SphinxException "no such curve");
  gensecret := fun i => Ok (Z.of_nat i + 1);
  expon_g := fun x => Ok (Toy.seal x);
  shuffle := Toy.order;
  Nenc := fun n => n;
  create_forward_message := fun _ => Toy.create;
  sphinx_process := Toy.process;
  PFdecode := fun i => Ok i;
  receive_forward := fun _ d => Ok d;
  payload_fits := fun d m => (String.length d + String.length m <=? 1000)%nat
|}.


End Faulty.

(** ** What the model asks of the library *)

Section Contracts.
Context (lib : SphinxLib).

(** Peeling a packet along [hops] (node id and private key of each hop, in
    route order): every hop but the last is told to relay to the next one,
    the last hop is told to deliver, and opening its payload gives back the
    destination and the message. *)
Fixpoint peel_chain (hops : list (Z * secret)) (dest msg : string)
  (packet : header * delta) : Prop :=
  match hops with
  | [] => False
  | (_, x) :: rest =>
      exists tg inf packet' mac,
        sphinx_process (Some x) (fst packet) (snd packet) = Ok (tg, inf, packet', mac) /\
        match rest with
        | [] =>
            PFdecode inf = Ok Dest /\
            receive_forward mac (snd packet') = Ok (dest, msg)
        | (n', _) :: _ =>
            PFdecode inf = Ok (Relay n') /\ peel_chain rest dest msg packet'
        end
  end.

(** The parameters can be built, and key generation succeeds. *)
Class KeyGen : Prop := {
  params_ok : SphinxParams = Ok tt;
  keygen_ok : forall i, exists s y, gensecret i = Ok s /\ expon_g s = Ok y
}.

(** The random order of [rand_subset] is an order of the list it is given. *)
Class Shuffles : Prop :=
  shuffle_perm : forall c l, shuffle c l ≡ₚ l.

(** The round trip of construct, peel and open: a packet can be built for
    a route of one to five hops and a payload that fits, and a packet built
    for a route peels along it. *)
Class RoundTrip : Prop := {
  construct_ok : forall c hops ys dest msg,
    Forall2 (fun h y => expon_g (snd h) = Ok y) hops ys ->
    (1 <= length hops <= 5)%nat ->
    payload_fits dest msg = true ->
    exists packet,
      create_forward_message c (Nenc <$> hops.*1) ys dest msg = Ok packet;
  peel_ok : forall c hops ys dest msg packet,
    Forall2 (fun h y => expon_g (snd h) = Ok y) hops ys ->
    create_forward_message c (Nenc <$> hops.*1) ys dest msg = Ok packet ->
    peel_chain hops dest msg packet
}.


End Contracts.

(** ** The vocabulary of the properties *)



Section Vocabulary.
Context (lib : SphinxLib).

Import Mixnet.

(** What the loop of [_initialize_nodes] leaves for the id it handles in
    its [i]-th iteration. *)
Definition node_entry (c : nat) (self : t) (i : nat) (nid : Z) : Prop :=
  exists sk pk,
    gensecret (c + i)%nat = Ok sk /\ expon_g sk = Ok pk /\
    pkiPriv self !! nid = Some (pki_entry nid (Some sk) pk) /\
    pkiPub self !! nid = Some (pki_entry nid None pk).

(** A registry as [Mixnet(n)] builds it at draw [c]: the ids are
    [0 .. n-1], and node [i] holds the key pair of draw [c + i]. *)
Definition registry_of (c : nat) (n : Z) (self : t) : Prop :=
  (forall nid, 0 <= nid < n -> node_entry c self (Z.to_nat nid) nid) /\
  (forall nid, ~ (0 <= nid < n) ->
     pkiPriv self !! nid = None /\ pkiPub self !! nid = None).

(** The private keys of the hops are the ones the registry holds. *)
Definition keys_held (self : t) (hops : list (Z * secret)) : Prop :=
  forall n x, (n, x) ∈ hops ->
    exists e, pkiPriv self !! n = Some e /\ pki_x e = Some x.

(** A peel that answers every packet with a relay to a registered node. *)
Definition always_relays (self : t) : Prop :=
  forall x hdr dlt, exists tg inf packet' mac addr e,
    sphinx_process x hdr dlt = Ok (tg, inf, packet', mac) /\
    PFdecode inf = Ok (Relay addr) /\
    pkiPriv self !! addr = Some e.

(** The next [n] peels of a run that starts with private key [x] on
    [packet] each answer with a relay to a registered node: the run of the
    loop, followed for [n] iterations. *)
Fixpoint relays_for (n : nat) (self : t) (x : option secret)
  (packet : header * delta) : Prop :=
  match n with
  | O => True
  | S n' =>
      exists tg inf packet' mac addr e,
        sphinx_process x (fst packet) (snd packet) = Ok (tg, inf, packet', mac) /\
        PFdecode inf = Ok (Relay addr) /\
        pkiPriv self !! addr = Some e /\
        relays_for n' self (pki_x e) packet'
  end.

(** How the iteration of the last hop leaves the loop, with the
    destination and the message the payload opens to: delivered, or failed
    on the first of the two texts that does not decode. *)
Definition delivery (dest msg : string) (w : world) : driver_state * world :=
  match bytes_decode dest with
  | Err e => (Failed e, w)
  | Ok d =>
      match bytes_decode msg with
      | Err e => (Failed e, w)
      | Ok m => (Delivered m, emit (received_line d m) w)
      end
  end.

End Vocabulary.

Arguments node_entry {lib}.
Arguments registry_of {lib}.
Arguments keys_held {lib}.
Arguments relays_for {lib}.
Arguments delivery {lib}.

(** ** Lemmas on the monad *)

Lemma bind_Return {A B} (m : M A) (k : A -> M B) w a w' :
  m w = (Return a, w') -> bind m k w = k a w'.
Proof. intros H. unfold bind. now rewrite H. Qed.

Lemma bind_Raise {A B} (m : M A) (k : A -> M B) w e w' :
  m w = (Raise e, w') -> bind m k w = (Raise e, w').
Proof. intros H. unfold bind. now rewrite H. Qed.

Lemma bind_OutOfFuel {A B} (m : M A) (k : A -> M B) w w' :
  m w = (OutOfFuel, w') -> bind m k w = (OutOfFuel, w').
Proof. intros H. unfold bind. now rewrite H. Qed.

Lemma try_Return {A} (m : M A) h w a w' :
  m w = (Return a, w') -> try_except m h w = (Return a, w').
Proof. intros H. unfold try_except. now rewrite H. Qed.

Lemma try_Raise {A} (m : M A) h w e w' :
  m w = (Raise e, w') -> try_except m h w = h e w'.
Proof. intros H. unfold try_except. now rewrite H. Qed.

Lemma try_OutOfFuel {A} (m : M A) h w w' :
  m w = (OutOfFuel, w') -> try_except m h w = (OutOfFuel, w').
Proof. intros H. unfold try_except. now rewrite H. Qed.

Lemma lift_Ok {A} (r : result A) a w : r = Ok a -> lift r w = (Return a, w).
Proof. now intros ->. Qed.

Lemma lift_Err {A} (r : result A) e w : r = Err e -> lift r w = (Raise e, w).
Proof. now intros ->. Qed.


Lemma stdout_advance_by n w : stdout (advance_by n w) = stdout w.
Proof. revert w. induction n as [|n IH]; intros w; simpl; [done|]. now rewrite IH. Qed.

(** ** The registry *)

Section Registry.
Context {lib : SphinxLib}.

Import Mixnet.

Lemma initialize_loop_inv ids : forall self w self' w',
  NoDup ids ->
  initialize_loop ids self w = (Return self', w') ->
  w' = advance_by (length ids) w /\
  (forall nid, nid ∉ ids ->
     pkiPriv self' !! nid = pkiPriv self !! nid /\
     pkiPub self' !! nid = pkiPub self !! nid) /\
  (forall i nid, ids !! i = Some nid -> node_entry (cursor w) self' i nid).
Proof.
  induction ids as [|nid ids IH]; intros self w self' w' Hnd Hrun.
  - simpl in Hrun. injection Hrun as <- <-. repeat split; auto.
    intros i nid H. rewrite lookup_nil in H. discriminate.
  - apply NoDup_cons in Hnd as [Hnot Hnd].
    simpl in Hrun. unfold bind at 1, draw_secret in Hrun.
    destruct (gensecret (cursor w)) as [sk|e] eqn:Hsk; [|discriminate].
    unfold bind at 1 in Hrun.
    destruct (expon_g sk) as [pk|e] eqn:Hpk; simpl in Hrun; [|discriminate].
    apply IH in Hrun as (-> & Hframe & Hent); [|assumption].
    split; [reflexivity|]. split.
    + intros n Hn. apply not_elem_of_cons in Hn as [Hne Hn].
      destruct (Hframe n Hn) as [-> ->]. simpl.
      rewrite !lookup_insert_ne by congruence. auto.
    + intros [|i] n Hi; simpl in Hi.
      * injection Hi as <-. exists sk, pk.
        destruct (Hframe nid Hnot) as [-> ->]. simpl.
        rewrite !lookup_insert_eq. rewrite Nat.add_0_r. auto.
      * destruct (Hent i n Hi) as (sk' & pk' & H1 & H2 & H3 & H4).
        exists sk', pk'. simpl in H1.
        replace (cursor w + S i)%nat with (S (cursor w + i)) by lia. auto.
Qed.

Lemma initialize_loop_total `{!KeyGen lib} ids : forall self w,
  exists self', initialize_loop ids self w = (Return self', advance_by (length ids) w).
Proof.
  induction ids as [|nid ids IH]; intros self w.
  - now exists self.
  - destruct (keygen_ok lib (cursor w)) as (sk & pk & Hsk & Hpk).
    simpl. unfold bind at 1, draw_secret. rewrite Hsk.
    unfold bind at 1. rewrite Hpk. simpl. apply IH.
Qed.

Lemma init_inv (num_nodes : option Z) w self w' :
  __init__ num_nodes w = (Return self, w') ->
  let n := default 10 num_nodes in
  w' = advance_by (Z.to_nat n) w /\ registry_of (cursor w) n self.
Proof.
  intros Hrun n. unfold __init__, _initialize_nodes, try_except, bind in Hrun.
  fold n in Hrun. destruct SphinxParams as [[]|e0]; simpl in Hrun; [|discriminate].
  destruct (initialize_loop (seqZ 0 n) _ w) as [[self0|e|] w0] eqn:Hloop;
    simpl in Hrun; try discriminate.
  injection Hrun as <- <-.
  apply initialize_loop_inv in Hloop as (-> & Hframe & Hent); [|apply NoDup_seqZ].
  rewrite length_seqZ. split; [reflexivity|]. split.
  - intros nid Hnid. apply Hent. rewrite lookup_seqZ. lia.
  - intros nid Hnid. destruct (Hframe nid) as [-> ->].
    + rewrite elem_of_seqZ. lia.
    + simpl. now rewrite !lookup_empty.
Qed.

Lemma init_total `{!KeyGen lib} (num_nodes : option Z) w :
  exists self, __init__ num_nodes w =
    (Return self, advance_by (Z.to_nat (default 10 num_nodes)) w).
Proof.
  unfold __init__, _initialize_nodes.
  destruct (initialize_loop_total (seqZ 0 (default 10 num_nodes))
              {| pkiPriv := ∅; pkiPub := ∅ |} w) as [self Hself].
  exists self. rewrite length_seqZ in Hself.
  erewrite try_Return; [reflexivity|].
  erewrite bind_Return; [|apply lift_Ok, (params_ok lib)].
  erewrite try_Return; [reflexivity|]. exact Hself.
Qed.

End Registry.

(** ** Route selection *)

Section Routes.
Context {lib : SphinxLib}.

Import Mixnet.

Lemma keys_NoDup (d : gmap Z PkiEntry) : NoDup (keys d).
Proof. apply NoDup_fst_map_to_list. Qed.

Lemma keys_length (d : gmap Z PkiEntry) : length (keys d) = size d.
Proof. unfold keys. now rewrite length_fmap, length_map_to_list. Qed.

Lemma elem_of_keys (d : gmap Z PkiEntry) n : n ∈ keys d <-> n ∈ dom d.
Proof.
  unfold keys. rewrite elem_of_dom, list_elem_of_fmap. split.
  - intros ([k e] & -> & H). apply elem_of_map_to_list in H. now exists e.
  - intros [e H]. exists (n, e). split; [reflexivity|]. now apply elem_of_map_to_list.
Qed.

Lemma rand_subset_spec `{!Shuffles lib} lst nu w :
  NoDup lst ->
  exists route,
    rand_subset lst nu w = (Return route, advance w) /\
    length route = Nat.min nu (length lst) /\
    NoDup route /\
    (forall n, n ∈ route -> n ∈ lst).
Proof.
  intros Hnd. exists (take nu (shuffle (cursor w) lst)).
  pose proof (shuffle_perm lib (cursor w) lst) as Hperm.
  split; [reflexivity|]. split; [|split].
  - rewrite length_take. now rewrite Hperm.
  - eapply sublist_NoDup; [|apply sublist_take]. now rewrite Hperm.
  - intros n Hn. rewrite <- Hperm. eapply elem_of_sublist; [exact Hn|apply sublist_take].
Qed.

End Routes.

(** ** The relay driver *)

Section Driver.
Context {lib : SphinxLib}.

Import Mixnet.

Lemma hop_peel_error self x packet w e :
  sphinx_process x (fst packet) (snd packet) = Err e ->
  hop self x packet w = (Failed e, w).
Proof. intros H. unfold hop, hop_body, bind. now rewrite H. Qed.

Lemma hop_relay self x packet w tg inf packet' mac addr e :
  sphinx_process x (fst packet) (snd packet) = Ok (tg, inf, packet', mac) ->
  PFdecode inf = Ok (Relay addr) ->
  pkiPriv self !! addr = Some e ->
  hop self x packet w = (AwaitingHop (pki_x e) packet', w).
Proof.
  intros H1 H2 H3. unfold hop, hop_body, bind, getitem.
  rewrite H1. simpl. rewrite H2. simpl. now rewrite H3.
Qed.

Lemma hop_relay_unknown self x packet w tg inf packet' mac addr :
  sphinx_process x (fst packet) (snd packet) = Ok (tg, inf, packet', mac) ->
  PFdecode inf = Ok (Relay addr) ->
  pkiPriv self !! addr = None ->
  hop self x packet w = (Failed (Exn KeyError (pretty addr)), w).
Proof.
  intros H1 H2 H3. unfold hop, hop_body, bind, getitem.
  rewrite H1. simpl. rewrite H2. simpl. now rewrite H3.
Qed.

Lemma hop_deliver self x packet w tg inf packet' mac dest msg d m :
  sphinx_process x (fst packet) (snd packet) = Ok (tg, inf, packet', mac) ->
  PFdecode inf = Ok Dest ->
  receive_forward mac (snd packet') = Ok (dest, msg) ->
  bytes_decode dest = Ok d ->
  bytes_decode msg = Ok m ->
  hop self x packet w = (Delivered m, emit (received_line d m) w).
Proof.
  intros H1 H2 H3 H4 H5. unfold hop, hop_body, bind.
  rewrite H1. simpl. rewrite H2. simpl. rewrite H3. simpl.
  rewrite H4. simpl. rewrite H5. simpl. reflexivity.
Qed.

Lemma hop_other self x packet w tg inf packet' mac :
  sphinx_process x (fst packet) (snd packet) = Ok (tg, inf, packet', mac) ->
  PFdecode inf = Ok OtherFlag ->
  hop self x packet w = (AwaitingHop x packet', w).
Proof.
  intros H1 H2. unfold hop, hop_body, bind.
  rewrite H1. simpl. now rewrite H2.
Qed.

Lemma drive_terminal fuel self st w :
  is_terminal st = true -> drive fuel self st w = (st, w).
Proof. destruct st, fuel; simpl; intros; done. Qed.

Lemma hop_count_terminal fuel self st w :
  is_terminal st = true -> hop_count fuel self st w = 0%nat.
Proof. destruct st, fuel; simpl; intros; done. Qed.

Lemma drive_S fuel self x packet w :
  drive (S fuel) self (AwaitingHop x packet) w =
  drive fuel self (hop self x packet w).1 (hop self x packet w).2.
Proof. simpl. now destruct (hop self x packet w). Qed.

Lemma hop_count_S fuel self x packet w :
  hop_count (S fuel) self (AwaitingHop x packet) w =
  S (hop_count fuel self (hop self x packet w).1 (hop self x packet w).2).
Proof. simpl. now destruct (hop self x packet w). Qed.

(** Running [a] iterations and then [b] more is running [a + b]. *)
Lemma drive_add a : forall b self st w,
  drive (a + b) self st w =
  drive b self (drive a self st w).1 (drive a self st w).2.
Proof.
  induction a as [|a IH]; intros b self st w.
  - now destruct st.
  - destruct st as [x packet|m|e].
    + change (S a + b)%nat with (S (a + b)). rewrite !drive_S. apply IH.
    + now rewrite !drive_terminal by done.
    + now rewrite !drive_terminal by done.
Qed.

(** A terminal state stays: more fuel does not change the result. *)
Lemma drive_more a b self st w :
  is_terminal (drive a self st w).1 = true ->
  drive (a + b) self st w = drive a self st w.
Proof.
  intros H. rewrite drive_add. rewrite drive_terminal by exact H.
  now destruct (drive a self st w).
Qed.

(** A packet that peels along [hops] is delivered after one iteration per
    hop. *)
Lemma drive_chain self dest msg d m :
  bytes_decode dest = Ok d ->
  bytes_decode msg = Ok m ->
  forall hops n0 x0 packet w fuel,
    peel_chain lib ((n0, x0) :: hops) dest msg packet ->
    keys_held self hops ->
    (S (length hops) <= fuel)%nat ->
    drive fuel self (AwaitingHop (Some x0) packet) w =
      (Delivered m, emit (received_line d m) w) /\
    hop_count fuel self (AwaitingHop (Some x0) packet) w = S (length hops).
Proof.
  intros Hd Hm. induction hops as [|[n1 x1] hops IH];
    intros n0 x0 packet w fuel Hchain Hheld Hfuel;
    (destruct fuel as [|fuel]; [simpl in Hfuel; lia|]);
    destruct Hchain as (tg & inf & packet' & mac & Hpeel & Hrest).
  - destruct Hrest as [Hdec Hopen].
    rewrite drive_S, hop_count_S.
    rewrite (hop_deliver _ _ _ _ _ _ _ _ _ _ _ _ Hpeel Hdec Hopen Hd Hm). simpl.
    rewrite drive_terminal, hop_count_terminal by done. auto.
  - destruct Hrest as [Hdec Hrest].
    destruct (Hheld n1 x1) as (e & He & Hx); [left|].
    rewrite drive_S, hop_count_S.
    rewrite (hop_relay _ _ _ _ _ _ _ _ _ _ Hpeel Hdec He). simpl. rewrite Hx.
    destruct (IH n1 x1 packet' w fuel Hrest) as [-> ->].
    + intros n x Hin. apply Hheld. now right.
    + simpl in Hfuel. lia.
    + auto.
Qed.

End Driver.

(** ** A send, end to end *)

Section Send.
Context {lib : SphinxLib}.

Import Mixnet.

Lemma registry_dom c n self nid :
  registry_of c n self -> nid ∈ dom (pkiPub self) <-> 0 <= nid < n.
Proof.
  intros [Hin Hout]. rewrite elem_of_dom. split.
  - intros [e He]. destruct (decide (0 <= nid < n)) as [|Hn]; [assumption|].
    destruct (Hout nid Hn) as [_ H]. congruence.
  - intros H. destruct (Hin nid H) as (sk & pk & _ & _ & _ & Hpub). eauto.
Qed.

Lemma registry_keys c n self :
  registry_of c n self -> keys (pkiPub self) ≡ₚ seqZ 0 n.
Proof.
  intros Hreg. apply NoDup_Permutation.
  - apply keys_NoDup.
  - apply NoDup_seqZ.
  - intros nid. rewrite elem_of_keys, (registry_dom c n self nid Hreg), elem_of_seqZ. lia.
Qed.

Lemma registry_size c n self :
  registry_of c n self -> size (pkiPub self) = Z.to_nat n.
Proof.
  intros Hreg. rewrite <- keys_length, (registry_keys c n self Hreg). apply length_seqZ.
Qed.

(** The hops of a route through a registry: the keys [send_message] reads
    are the public halves of the keys the driver will use. *)
Lemma registry_hops c n self route :
  registry_of c n self ->
  (forall nid, nid ∈ route -> nid ∈ dom (pkiPub self)) ->
  exists hops ys,
    hops.*1 = route /\
    Forall2 (fun h y => expon_g (snd h) = Ok y) hops ys /\
    keys_held self hops /\
    forall w, keys_of (pkiPub self) route w = (Return ys, w).
Proof.
  intros Hreg. induction route as [|nid route IH]; intros Hin.
  - exists [], []. repeat split; auto.
    intros k x H. now apply elem_of_nil in H.
  - destruct IH as (hops & ys & Hfst & Hall & Hheld & Hkeys).
    { intros k Hk. apply Hin. now right. }
    assert (0 <= nid < n) as Hnid.
    { apply (registry_dom c n self nid Hreg), Hin. left. }
    destruct (proj1 Hreg nid Hnid) as (sk & pk & _ & Hpk & Hpriv & Hpub).
    exists ((nid, sk) :: hops), (pk :: ys). split; [|split; [|split]].
    + rewrite fmap_cons. simpl. now f_equal.
    + now constructor.
    + intros k x Hk. apply elem_of_cons in Hk as [Hk|Hk].
      * injection Hk as -> ->. eexists. split; [exact Hpriv|reflexivity].
      * now apply Hheld.
    + intros w. simpl. unfold bind at 1, getitem. rewrite Hpub. simpl.
      unfold bind at 1. rewrite Hkeys. reflexivity.
Qed.

(** [_process_message] on a packet that peels along the route. *)
Lemma process_message_chain self dest msg d m hops hdr dlt w fuel :
  bytes_decode dest = Ok d ->
  bytes_decode msg = Ok m ->
  hops <> [] ->
  keys_held self hops ->
  peel_chain lib hops dest msg (hdr, dlt) ->
  (length hops <= fuel)%nat ->
  _process_message fuel self hdr dlt hops.*1 w =
    (Return m, emit (received_line d m) w).
Proof.
  intros Hd Hm Hne Hheld Hchain Hfuel.
  destruct hops as [|[n0 x0] hops]; [done|].
  destruct (Hheld n0 x0) as (e & He & Hx); [left|].
  destruct (drive_chain self dest msg d m Hd Hm hops n0 x0 (hdr, dlt) w fuel)
    as [Hdrive _]; [assumption| |assumption|].
  { intros k x Hin. apply Hheld. now right. }
  unfold _process_message. erewrite try_Return; [reflexivity|].
  simpl. unfold bind at 1. simpl. unfold bind at 1, getitem. rewrite He. simpl.
  rewrite Hx, Hdrive. reflexivity.
Qed.

(** Steps 1 and 2 of a send through a registry as [Mixnet(n)] builds it,
    with a message and a destination that have an encoding and fit the
    payload: a route of [min 5 n] distinct nodes, and a packet that peels
    along it. *)
Lemma build_packet_ok `{!Shuffles lib, !RoundTrip lib} c n self msg dest w :
  registry_of c n self ->
  1 <= n ->
  utf8_valid dest = true ->
  utf8_valid msg = true ->
  payload_fits dest msg = true ->
  exists hops hdr dlt,
    build_packet self (PStr msg) dest w =
      (Return (hops.*1, (hdr, dlt)), emit (created_line dest) (advance (advance w))) /\
    length hops = Nat.min 5 (Z.to_nat n) /\
    NoDup hops.*1 /\
    keys_held self hops /\
    peel_chain lib hops dest msg (hdr, dlt).
Proof.
  intros Hreg Hn Hdest Hmsg Hfits.
  destruct (rand_subset_spec (keys (pkiPub self)) 5 w (keys_NoDup _))
    as (route & Hsel & Hlen & Hnd & Hin).
  rewrite keys_length, (registry_size c n self Hreg) in Hlen.
  destruct (registry_hops c n self route Hreg) as (hops & ys & Hfst & Hall & Hheld & Hkeys).
  { intros nid Hnid. apply elem_of_keys, Hin, Hnid. }
  assert (length hops = length route) as Hlh by (now rewrite <- Hfst, length_fmap).
  destruct (construct_ok lib (cursor (advance w)) hops ys dest msg Hall) as [[hdr dlt] Hpkt];
    [lia|assumption|].
  pose proof (peel_ok lib _ _ _ _ _ _ Hall Hpkt) as Hchain.
  assert (str_encode dest = Ok dest) as Henc by (unfold str_encode; now rewrite Hdest).
  exists hops, hdr, dlt. split; [|split; [lia|split; [now rewrite Hfst|auto]]].
  unfold build_packet.
  erewrite bind_Return; [|exact Hsel].
  simpl. erewrite bind_Return; [|apply Hkeys].
  erewrite bind_Return; [|apply lift_Ok, Henc].
  erewrite bind_Return; [|apply lift_Ok; simpl; unfold str_encode; now rewrite Hmsg].
  erewrite bind_Return; [|rewrite <- Hfst, Hpkt; reflexivity].
  rewrite Hfst. reflexivity.
Qed.

(** The whole send: the message comes back. *)
Lemma send_delivers `{!Shuffles lib, !RoundTrip lib} c n self msg dest w fuel :
  registry_of c n self ->
  1 <= n ->
  utf8_valid dest = true ->
  utf8_valid msg = true ->
  payload_fits dest msg = true ->
  (5 <= fuel)%nat ->
  send_message fuel self (PStr msg) dest w =
    (Return msg,
     emit (received_line dest msg) (emit (created_line dest) (advance (advance w)))).
Proof.
  intros Hreg Hn Hdest Hmsg Hfits Hfuel.
  destruct (build_packet_ok c n self msg dest w Hreg Hn Hdest Hmsg Hfits)
    as (hops & hdr & dlt & Hbuild & Hlen & _ & Hheld & Hchain).
  assert (bytes_decode dest = Ok dest) as Hdd by (unfold bytes_decode; now rewrite Hdest).
  assert (bytes_decode msg = Ok msg) as Hdm by (unfold bytes_decode; now rewrite Hmsg).
  unfold send_message. erewrite try_Return; [reflexivity|].
  erewrite bind_Return; [|exact Hbuild]. simpl.
  apply (process_message_chain self dest msg dest msg hops hdr dlt); auto.
  - intros ->. cbn [length] in Hlen. lia.
  - lia.
Qed.

End Send.

(** ** The small instance meets the contracts *)

Module ToyLaws.

Lemma keygen : KeyGen Toy.lib.
Proof.
  split; [reflexivity|].
  intros i. now exists (Z.of_nat i + 1), (Toy.seal (Z.of_nat i + 1)).
Qed.

Lemma shuffles : Shuffles Toy.lib.
Proof.
  intros c l. simpl. unfold Toy.order.
  destruct (Nat.even c); [apply reverse_Permutation|reflexivity].
Qed.


Lemma layers_peel dest msg : forall (hops : list (Z * Z)) (ys : list Z),
  Forall2 (fun h y => Ok (Toy.seal (snd h)) = Ok y) hops ys ->
  hops <> [] ->
  peel_chain Toy.lib hops dest msg (Toy.layers hops.*1 ys, (dest, msg)).
Proof.
  intros hops ys Hall. induction Hall as [|[n x] y hops ys Hy Hall IH]; intros Hne; [done|].
  injection Hy as <-. simpl.
  destruct Hall as [|[n' x'] y' hops' ys' Hy' Hall'].
  - simpl. exists tt, Dest, ([], (dest, msg)), tt.
    rewrite Z.eqb_refl. auto.
  - exists tt, (Relay n'), (Toy.layers ((n', x') :: hops').*1 (y' :: ys'), (dest, msg)), tt.
    simpl. rewrite Z.eqb_refl. repeat split.
    apply IH. discriminate.
Qed.

Lemma round_trip : RoundTrip Toy.lib.
Proof.
  split.
  - intros c hops ys dest msg Hall Hlen Hfits. simpl in *.
    unfold Toy.create. rewrite !length_fmap.
    rewrite <- (Forall2_length _ _ _ Hall), Nat.eqb_refl, Hfits.
    destruct Hlen as [H1 H5].
    apply Nat.leb_le in H1, H5. rewrite H1, H5. simpl. eauto.
  - intros c hops ys dest msg packet Hall Hpkt. simpl in *.
    change ((fun n : Z => n) <$> hops.*1) with (id <$> hops.*1) in Hpkt.
    rewrite list_fmap_id in Hpkt.
    unfold Toy.create in Hpkt. rewrite !length_fmap in Hpkt.
    destruct (_ && _) eqn:Hcond in Hpkt; [|discriminate].
    injection Hpkt as <-. apply layers_peel; [exact Hall|].
    intros ->. simpl in Hcond. destruct ys; discriminate.
Qed.

End ToyLaws.

(** ** The route of a send *)

Lemma bind_inv {A B} (m : M A) (k : A -> M B) w b w' :
  bind m k w = (Return b, w') ->
  exists a w1, m w = (Return a, w1) /\ k a w1 = (Return b, w').
Proof.
  unfold bind. destruct (m w) as [[a|e|] w1]; intros H; try discriminate. eauto.
Qed.

Section RouteOfSend.
Context {lib : SphinxLib}.

Import Mixnet.

(** The route [build_packet] hands to the driver is the one line 75
    selects. *)
Lemma build_packet_route self message dest w route packet w' :
  build_packet self message dest w = (Return (route, packet), w') ->
  rand_subset (keys (pkiPub self)) 5 w = (Return route, advance w).
Proof.
  intros H. unfold build_packet in H.
  apply bind_inv in H as (use_nodes & w1 & Hsel & H).
  apply bind_inv in H as (ys & w2 & _ & H).
  apply bind_inv in H as (d & w3 & _ & H).
  apply bind_inv in H as (m & w4 & _ & H).
  apply bind_inv in H as (pkt & w5 & _ & H).
  apply bind_inv in H as (u & w6 & _ & H).
  injection H as <- <- <-.
  unfold rand_subset in *. now injection Hsel as <- <-.
Qed.

Lemma build_packet_route_length `{!Shuffles lib} self message dest w route packet w' :
  build_packet self message dest w = (Return (route, packet), w') ->
  length route = Nat.min 5 (size (pkiPub self)).
Proof.
  intros H. apply build_packet_route in H.
  destruct (rand_subset_spec (keys (pkiPub self)) 5 w (keys_NoDup _))
    as (route' & Hsel & Hlen & _).
  rewrite H in Hsel. injection Hsel as <-. now rewrite Hlen, keys_length.
Qed.

Lemma registry_size_priv c n self :
  registry_of c n self -> size (pkiPriv self) = Z.to_nat n.
Proof.
  intros [Hin Hout]. rewrite <- keys_length, <- (length_seqZ 0 n).
  apply Permutation_length, NoDup_Permutation; [apply keys_NoDup|apply NoDup_seqZ|].
  intros nid. rewrite elem_of_keys, elem_of_dom, elem_of_seqZ. split.
  - intros [e He]. destruct (decide (0 <= nid < n)) as [|Hn]; [lia|].
    destruct (Hout nid Hn) as [H _]. congruence.
  - intros H. destruct (Hin nid) as (sk & pk & _ & _ & Hpriv & _); [lia|eauto].
Qed.

End RouteOfSend.

(** ** What a computation does to the world *)









Section Tame.
Context {lib : SphinxLib}.

Import Mixnet.
















End Tame.

(** ** A peel that never delivers *)

Lemma drive_spins (lib : SphinxLib) (self : Mixnet.t) :
  always_relays lib self ->
  forall fuel x packet w,
    Mixnet.is_terminal (Mixnet.drive fuel self (Mixnet.AwaitingHop x packet) w).1 = false /\
    (Mixnet.drive fuel self (Mixnet.AwaitingHop x packet) w).2 = w /\
    Mixnet.hop_count fuel self (Mixnet.AwaitingHop x packet) w = fuel.
Proof.
  intros Hrel. induction fuel as [|fuel IH]; intros x packet w; [done|].
  destruct (Hrel x packet.1 packet.2) as (tg & inf & packet' & mac & addr & e & H1 & H2 & H3).
  rewrite drive_S, hop_count_S, (hop_relay _ _ _ _ _ _ _ _ _ _ H1 H2 H3). simpl.
  destruct (IH (Mixnet.pki_x e) packet' w) as (-> & -> & ->). auto.
Qed.

(** With such a peel [_process_message] and [send_message] do not come
    back, whatever the number of iterations. *)
Lemma process_message_spins (lib : SphinxLib) (self : Mixnet.t) n0 e route :
  always_relays lib self ->
  Mixnet.pkiPriv self !! n0 = Some e ->
  forall fuel hdr dlt w,
    Mixnet._process_message fuel self hdr dlt (n0 :: route) w = (OutOfFuel, w).
Proof.
  intros Hrel He fuel hdr dlt w.
  destruct (drive_spins lib self Hrel fuel (Mixnet.pki_x e) (hdr, dlt) w) as (Hterm & Hw & _).
  unfold Mixnet._process_message. erewrite try_OutOfFuel; [reflexivity|].
  unfold bind at 1. simpl. unfold bind at 1, Mixnet.getitem. rewrite He. simpl.
  destruct (Mixnet.drive fuel self _ w) as [[x p|m|err] w']; simpl in *;
    try discriminate.
  now subst.
Qed.

Lemma send_spins (lib : SphinxLib) (self : Mixnet.t) message dest w n0 e route hdr dlt w1 :
  always_relays lib self ->
  Mixnet.build_packet self message dest w = (Return (n0 :: route, (hdr, dlt)), w1) ->
  Mixnet.pkiPriv self !! n0 = Some e ->
  forall fuel, Mixnet.send_message fuel self message dest w = (OutOfFuel, w1).
Proof.
  intros Hrel Hbuild He fuel. unfold Mixnet.send_message.
  erewrite try_OutOfFuel; [reflexivity|].
  erewrite bind_Return; [|exact Hbuild]. simpl.
  now apply (process_message_spins lib self n0 e).
Qed.

Lemma spin_always_relays : always_relays Toy.spin (Toy.mixnet Toy.spin 10).
Proof.
  intros x hdr dlt. exists tt, (Relay 0), (hdr, dlt), tt, 0. eexists.
  split; [reflexivity|]. split; [reflexivity|]. vm_compute. reflexivity.
Qed.

(** ** What the relay loop does to the world *)

Section DriverEffects.
Context {lib : SphinxLib}.

Import Mixnet.

Lemma hop_effect self x packet w :
  cursor (hop self x packet w).2 = cursor w /\
  match (hop self x packet w).1 with
  | Delivered m =>
      exists d, stdout (hop self x packet w).2 = (stdout w ++ [received_line d m])%list
  | _ => stdout (hop self x packet w).2 = stdout w
  end.
Proof.
  unfold hop, hop_body, bind, lift, getitem, ret, raise, print.
  destruct (sphinx_process x packet.1 packet.2) as [[[[tg inf] packet'] mac]|e];
    simpl; [|auto].
  destruct (PFdecode inf) as [[addr| |]|e]; simpl; [|..|auto].
  - destruct (pkiPriv self !! addr); simpl; auto.
  - destruct (receive_forward mac packet'.2) as [[dest received]|e]; simpl; [|auto].
    destruct (bytes_decode dest) as [d|e]; simpl; [|auto].
    destruct (bytes_decode received) as [m|e]; simpl; [|auto].
    split; [reflexivity|]. now exists d.
  - auto.
Qed.

Lemma drive_effect fuel self : forall x packet w,
  cursor (drive fuel self (AwaitingHop x packet) w).2 = cursor w /\
  match (drive fuel self (AwaitingHop x packet) w).1 with
  | Delivered m =>
      exists d, stdout (drive fuel self (AwaitingHop x packet) w).2 =
                  (stdout w ++ [received_line d m])%list
  | _ => stdout (drive fuel self (AwaitingHop x packet) w).2 = stdout w
  end.
Proof.
  induction fuel as [|fuel IH]; intros x packet w; [simpl; auto|].
  rewrite drive_S. destruct (hop_effect self x packet w) as [Hc Hs].
  destruct (hop self x packet w) as [[x' packet'|m|e] w1]; simpl in *.
  - destruct (IH x' packet' w1) as [Hc' Hs']. rewrite Hc', Hc. split; [reflexivity|].
    destruct (drive fuel self (AwaitingHop x' packet') w1).1; now rewrite <- Hs.
  - rewrite drive_terminal by done. simpl. auto.
  - rewrite drive_terminal by done. simpl. auto.
Qed.

(** As many iterations as the budget, when the loop is still going. *)
Lemma hop_count_running fuel self : forall st w x packet w',
  drive fuel self st w = (AwaitingHop x packet, w') ->
  is_terminal st = false ->
  hop_count fuel self st w = fuel.
Proof.
  induction fuel as [|fuel IH]; intros st w x packet w' Hrun Hst; [now destruct st|].
  destruct st as [x0 p0|m|e]; try discriminate.
  rewrite hop_count_S. rewrite drive_S in Hrun. f_equal.
  destruct (hop self x0 p0 w) as [st1 w1]; simpl in *.
  apply (IH st1 w1 x packet w' Hrun).
  destruct st1; [reflexivity|..]; rewrite drive_terminal in Hrun by done; discriminate.
Qed.

Lemma hop_count_add a : forall b self st w,
  hop_count (a + b) self st w =
  (hop_count a self st w +
   hop_count b self (drive a self st w).1 (drive a self st w).2)%nat.
Proof.
  induction a as [|a IH]; intros b self st w.
  - now destruct st.
  - destruct st as [x packet|m|e].
    + change (S a + b)%nat with (S (a + b)).
      rewrite !hop_count_S, drive_S, IH. reflexivity.
    + rewrite (hop_count_terminal (S a + b)), (hop_count_terminal (S a)) by done.
      rewrite drive_terminal by done. simpl. now rewrite hop_count_terminal.
    + rewrite (hop_count_terminal (S a + b)), (hop_count_terminal (S a)) by done.
      rewrite drive_terminal by done. simpl. now rewrite hop_count_terminal.
Qed.

End DriverEffects.

(** ** The draws and the lines of a request *)










Section Bounds.
Context {lib : SphinxLib}.

Import Mixnet.













End Bounds.

(** ** The runs of the relay loop *)

Section Runs.
Context {lib : SphinxLib}.

Import Mixnet.

Lemma hop_last self x packet w tg inf packet' mac dest msg :
  sphinx_process x (fst packet) (snd packet) = Ok (tg, inf, packet', mac) ->
  PFdecode inf = Ok Dest ->
  receive_forward mac (snd packet') = Ok (dest, msg) ->
  hop self x packet w = delivery dest msg w.
Proof.
  intros H1 H2 H3. unfold hop, hop_body, bind, delivery.
  rewrite H1. simpl. rewrite H2. simpl. rewrite H3. simpl.
  destruct (bytes_decode dest) as [d|e]; simpl; [|reflexivity].
  destruct (bytes_decode msg) as [m|e]; simpl; reflexivity.
Qed.

Lemma delivery_terminal dest msg w : is_terminal (delivery dest msg w).1 = true.
Proof.
  unfold delivery. destruct (bytes_decode dest); [|reflexivity].
  destruct (bytes_decode msg); reflexivity.
Qed.

(** A packet that peels along a route takes one iteration per hop. *)
Lemma drive_route self dest msg : forall hops n0 x0 packet w fuel,
  peel_chain lib ((n0, x0) :: hops) dest msg packet ->
  keys_held self hops ->
  (S (length hops) <= fuel)%nat ->
  drive fuel self (AwaitingHop (Some x0) packet) w = delivery dest msg w /\
  hop_count fuel self (AwaitingHop (Some x0) packet) w = S (length hops).
Proof.
  induction hops as [|[n1 x1] hops IH];
    intros n0 x0 packet w fuel Hchain Hheld Hfuel;
    (destruct fuel as [|fuel]; [simpl in Hfuel; lia|]);
    destruct Hchain as (tg & inf & packet' & mac & Hpeel & Hrest).
  - destruct Hrest as [Hdec Hopen].
    rewrite drive_S, hop_count_S, (hop_last _ _ _ _ _ _ _ _ _ _ Hpeel Hdec Hopen).
    pose proof (delivery_terminal dest msg w) as Hterm.
    destruct (delivery dest msg w) as [st w1]. simpl in *.
    rewrite drive_terminal, hop_count_terminal by exact Hterm. auto.
  - destruct Hrest as [Hdec Hrest].
    destruct (Hheld n1 x1) as (e & He & Hx); [left|].
    rewrite drive_S, hop_count_S.
    rewrite (hop_relay _ _ _ _ _ _ _ _ _ _ Hpeel Hdec He). simpl. rewrite Hx.
    destruct (IH n1 x1 packet' w fuel Hrest) as [-> ->].
    + intros k x Hin. apply Hheld. now right.
    + simpl in Hfuel. lia.
    + auto.
Qed.

(** As long as the peels relay, the loop goes on. *)
Lemma drive_relays self : forall n x packet w,
  relays_for n self x packet ->
  is_terminal (drive n self (AwaitingHop x packet) w).1 = false /\
  (drive n self (AwaitingHop x packet) w).2 = w /\
  hop_count n self (AwaitingHop x packet) w = n.
Proof.
  induction n as [|n IH]; intros x packet w Hrel; [done|].
  destruct Hrel as (tg & inf & packet' & mac & addr & e & H1 & H2 & H3 & Hrest).
  rewrite drive_S, hop_count_S, (hop_relay _ _ _ _ _ _ _ _ _ _ H1 H2 H3). simpl.
  destruct (IH (pki_x e) packet' w Hrest) as (-> & -> & ->). auto.
Qed.

End Runs.

(** ** The properties of the specification *)

(** C1: with a registry of 10 nodes, sending "hello" to the destination
    label "destination_node" takes a route of 5 nodes and returns the
    message "hello"; the line the driver prints on delivery reports the
    destination "destination_node".  This holds for every library whose
    key generation succeeds, whose [rand_subset] orders the list it is
    given, and whose construct, peel and open meet the round-trip
    contract. *)
Theorem send_hello_round_trip (lib : SphinxLib)
  `{!KeyGen lib, !Shuffles lib, !RoundTrip lib} (w : world) (fuel : nat) :
  payload_fits "destination_node" "hello" = true ->
  (5 <= fuel)%nat ->
  exists mixnet w1 route packet w2,
    Mixnet.__init__ (Some 10) w = (Return mixnet, w1) /\
    size (Mixnet.pkiPub mixnet) = 10%nat /\
    Mixnet.build_packet mixnet (PStr "hello") "destination_node" w1 =
      (Return (route, packet), w2) /\
    length route = 5%nat /\
    Mixnet.send_message fuel mixnet (PStr "hello") "destination_node" w1 =
      (Return "hello",
       emit "Message received at destination 'destination_node': hello" w2).
Proof.
  intros Hfits Hfuel.
  destruct (init_total (Some 10) w) as [mixnet Hinit].
  destruct (init_inv _ _ _ _ Hinit) as [_ Hreg]. simpl in Hreg.
  destruct (build_packet_ok (cursor w) 10 mixnet "hello" "destination_node"
              (advance_by (Z.to_nat 10) w) Hreg)
    as (hops & hdr & dlt & Hbuild & Hlen & _); [lia|reflexivity|reflexivity|exact Hfits|].
  exists mixnet, (advance_by (Z.to_nat 10) w), hops.*1, (hdr, dlt).
  eexists. split; [exact Hinit|]. split; [exact (registry_size _ _ _ Hreg)|].
  split; [exact Hbuild|]. split; [now rewrite length_fmap, Hlen|].
  now apply (send_delivers (cursor w) 10).
Qed.

Lemma send_hello_round_trip_witness :
  exists mixnet w1 route packet w2,
    @Mixnet.__init__ Toy.lib (Some 10) Toy.w0 = (Return mixnet, w1) /\
    size (Mixnet.pkiPub mixnet) = 10%nat /\
    Mixnet.build_packet mixnet (PStr "hello") "destination_node" w1 =
      (Return (route, packet), w2) /\
    length route = 5%nat /\
    Mixnet.send_message 5 mixnet (PStr "hello") "destination_node" w1 =
      (Return "hello",
       emit "Message received at destination 'destination_node': hello" w2).
Proof.
  apply (@send_hello_round_trip Toy.lib ToyLaws.keygen ToyLaws.shuffles ToyLaws.round_trip
           Toy.w0 5%nat); [reflexivity|lia].
Defined.

(** C2, as the code has it: the relay loop has no hop bound and no
    [RoutingLoopError].  On a packet that peels along a route of [L] nodes
    whose keys the registry holds it runs exactly [L] iterations and ends,
    delivered (or failed, when a text of the payload does not decode); and
    as long as the peels of a run answer with relays to registered nodes
    the loop goes on: after [n] such peels, for any [n], it has run [n]
    iterations and is in no terminal state. *)
Theorem relay_driver_hops (lib : SphinxLib) (self : Mixnet.t) :
  (forall dest msg hops n0 x0 packet w fuel,
     peel_chain lib ((n0, x0) :: hops) dest msg packet ->
     keys_held self hops ->
     (length ((n0, x0) :: hops) <= fuel)%nat ->
     Mixnet.drive fuel self (Mixnet.AwaitingHop (Some x0) packet) w =
       delivery dest msg w /\
     Mixnet.hop_count fuel self (Mixnet.AwaitingHop (Some x0) packet) w =
       length ((n0, x0) :: hops)) /\
  (forall n x packet w,
     relays_for n self x packet ->
     Mixnet.is_terminal (Mixnet.drive n self (Mixnet.AwaitingHop x packet) w).1 = false /\
     Mixnet.hop_count n self (Mixnet.AwaitingHop x packet) w = n).
Proof.
  split.
  - intros dest msg hops n0 x0 packet w fuel Hchain Hheld Hfuel.
    now apply (drive_route self dest msg hops n0).
  - intros n x packet w Hrel.
    destruct (drive_relays self n x packet w Hrel) as (H1 & _ & H2). auto.
Qed.

Lemma relay_driver_hops_witness :
  (Mixnet.drive 2 (Toy.mixnet Toy.lib 10) (Toy.at_hop 1 [(3, Relay 1); (5, Dest)]) Toy.w0 =
     (Mixnet.Delivered "hello",
      emit "Message received at destination 'destination_node': hello" Toy.w0) /\
   Mixnet.hop_count 2 (Toy.mixnet Toy.lib 10) (Toy.at_hop 1 [(3, Relay 1); (5, Dest)])
     Toy.w0 = 2%nat) /\
  (Mixnet.is_terminal
     (Mixnet.drive 3 (Toy.mixnet Toy.lib 10)
        (Toy.at_hop 1 [(3, Relay 1); (5, Relay 0); (3, Relay 1); (5, Dest)]) Toy.w0).1 =
     false /\
   Mixnet.hop_count 3 (Toy.mixnet Toy.lib 10)
     (Toy.at_hop 1 [(3, Relay 1); (5, Relay 0); (3, Relay 1); (5, Dest)]) Toy.w0 = 3%nat).
Proof.
  split.
  - apply (proj1 (relay_driver_hops Toy.lib (Toy.mixnet Toy.lib 10))
             "destination_node" "hello" [(1, 2)] 0 1).
    + simpl. exists tt, (Relay 1), ([(5, Dest)], ("destination_node", "hello")), tt.
      repeat split. exists tt, Dest, ([], ("destination_node", "hello")), tt.
      repeat split.
    + intros n x Hin. apply list_elem_of_singleton in Hin. injection Hin as -> ->.
      eexists. split; vm_compute; reflexivity.
    + simpl. lia.
  - apply (proj2 (relay_driver_hops Toy.lib (Toy.mixnet Toy.lib 10))).
    exists tt, (Relay 1), ([(5, Relay 0); (3, Relay 1); (5, Dest)], ("destination_node", "hello")),
      tt, 1, (Mixnet.pki_entry (lib:=Toy.lib) 1 (Some 2) 5).
    split; [reflexivity|]. split; [reflexivity|]. split; [vm_compute; reflexivity|].
    exists tt, (Relay 0), ([(3, Relay 1); (5, Dest)], ("destination_node", "hello")),
      tt, 0, (Mixnet.pki_entry (lib:=Toy.lib) 0 (Some 1) 3).
    split; [reflexivity|]. split; [reflexivity|]. split; [vm_compute; reflexivity|].
    exists tt, (Relay 1), ([(5, Dest)], ("destination_node", "hello")),
      tt, 1, (Mixnet.pki_entry (lib:=Toy.lib) 1 (Some 2) 5).
    split; [reflexivity|]. split; [reflexivity|]. split; [vm_compute; reflexivity|].
    exact I.
Defined.

(** C2 fails as stated: a send of "hello" through 10 nodes whose peel keeps
    answering with a relay is still in the loop after 7 iterations, more
    than the 5 nodes of its route plus one, and it never ends, neither
    delivered nor failed. *)
Lemma relay_driver_hops_counterexample :
  Mixnet.drive 7 (Toy.mixnet Toy.spin 10) (Toy.spin_at_hop 1 []) Toy.w0 =
    (Toy.spin_at_hop 1 [], Toy.w0) /\
  (forall fuel,
     (Mixnet.send_message fuel (Toy.mixnet Toy.spin 10) (PStr "hello") "destination_node"
        (Toy.after 10)).1 = OutOfFuel).
Proof.
  split.
  - vm_compute. reflexivity.
  - intros fuel.
    erewrite (send_spins Toy.spin (Toy.mixnet Toy.spin 10) (PStr "hello") "destination_node"
                (Toy.after 10) 0 _ [1; 2; 4; 8]
                [(3, Relay 1); (5, Relay 2); (7, Relay 4); (11, Relay 8); (19, Dest)]
                ("destination_node", "hello") _ spin_always_relays);
      [reflexivity|vm_compute; reflexivity|vm_compute; reflexivity].
Qed.

(** C3, as the code has it: [send_message] has no failure value to
    return.  Every failure of a send, in route selection and packet
    construction or in the relay driver, is raised to the caller as a plain
    [Exception] whose text is "Error sending message: " followed by the text
    of the failure; the driver's own failures reach it as a plain
    [Exception] "Error processing message: ...". *)
Theorem send_failures_are_raised (lib : SphinxLib) (fuel : nat) (self : Mixnet.t)
  (message : pyval) (dest : string) (w : world) :
  (forall e w',
     Mixnet.build_packet self message dest w = (Raise e, w') ->
     Mixnet.send_message fuel self message dest w =
       (Raise (Exn PyException ("Error sending message: " ++ exn_str e)), w')) /\
  (forall route hdr dlt w1 e w2,
     Mixnet.build_packet self message dest w = (Return (route, (hdr, dlt)), w1) ->
     Mixnet._process_message fuel self hdr dlt route w1 = (Raise e, w2) ->
     Mixnet.send_message fuel self message dest w =
       (Raise (Exn PyException ("Error sending message: " ++ exn_str e)), w2)) /\
  (forall e w',
     Mixnet.send_message fuel self message dest w = (Raise e, w') ->
     exn_class e = PyException /\
     exists cause, exn_str e = "Error sending message: " ++ cause) /\
  (forall hdr dlt route w1 e w2,
     Mixnet._process_message fuel self hdr dlt route w1 = (Raise e, w2) ->
     exn_class e = PyException /\
     exists cause, exn_str e = "Error processing message: " ++ cause).
Proof.
  split; [|split; [|split]].
  - intros e w' Hbuild. unfold Mixnet.send_message.
    erewrite try_Raise; [reflexivity|]. now apply bind_Raise.
  - intros route hdr dlt w1 e w2 Hbuild Hproc. unfold Mixnet.send_message.
    erewrite try_Raise; [reflexivity|].
    erewrite bind_Return; [|exact Hbuild]. exact Hproc.
  - intros e w'. unfold Mixnet.send_message, try_except.
    destruct (bind _ _ w) as [[m|e0|] w0]; intros [= <- <-]. eauto.
  - intros hdr dlt route w1 e w2. unfold Mixnet._process_message, try_except.
    destruct (bind _ _ w1) as [[m|e0|] w0]; intros [= <- <-]. eauto.
Qed.

Lemma send_failures_are_raised_witness :
  Mixnet.send_message (lib:=Toy.lib) 5 (Toy.mixnet Toy.lib 10) (PInt 7) "destination_node"
    (Toy.after 10) =
  (Raise (Exn PyException
            "Error sending message: 'int' object has no attribute 'encode'"),
   advance (Toy.after 10)).
Proof.
  apply (proj1 (send_failures_are_raised Toy.lib 5 (Toy.mixnet Toy.lib 10) (PInt 7)
                  "destination_node" (Toy.after 10))
           (no_attribute (PInt 7) "encode") (advance (Toy.after 10))).
  vm_compute. reflexivity.
Defined.

(** C3 fails as stated: a send whose message is [None] (what the endpoint
    passes when the request has no "message" field) fails in packet
    construction, and the failure is raised to the caller. *)
Lemma send_failures_are_raised_counterexample :
  Mixnet.send_message (lib:=Toy.lib) 5 (Toy.mixnet Toy.lib 10) PNone "destination_node"
    (Toy.after 10) =
  (Raise (Exn PyException
            "Error sending message: 'NoneType' object has no attribute 'encode'"),
   advance (Toy.after 10)).
Proof. vm_compute. reflexivity. Qed.

(** C4, as the code has it: when the peel at a hop answers with a relay to
    a node id that the registry does not hold, the lookup of the private
    key raises [KeyError] and the driver ends the session with a plain
    [Exception] whose text is "Error processing message: " followed by the
    id; the error has the class of every other failure of the driver. *)
Theorem unknown_next_hop_raises (lib : SphinxLib) (self : Mixnet.t)
  (fuel k : nat) (hdr : header) (dlt : delta) (n0 : Z) (route : list Z) (e0 : Mixnet.PkiEntry)
  (x : option secret) (packet packet' : header * delta) (w w' : world)
  (tg : tag) (inf : info) (mac : mac_key) (addr : Z) :
  Mixnet.pkiPriv self !! n0 = Some e0 ->
  Mixnet.drive k self (Mixnet.AwaitingHop (Mixnet.pki_x e0) (hdr, dlt)) w =
    (Mixnet.AwaitingHop x packet, w') ->
  sphinx_process x packet.1 packet.2 = Ok (tg, inf, packet', mac) ->
  PFdecode inf = Ok (Relay addr) ->
  Mixnet.pkiPriv self !! addr = None ->
  (k < fuel)%nat ->
  Mixnet._process_message fuel self hdr dlt (n0 :: route) w =
    (Raise (Exn PyException ("Error processing message: " ++ pretty addr)), w').
Proof.
  intros He0 Hreach Hpeel Hdec Hnone Hfuel.
  unfold Mixnet._process_message.
  erewrite (try_Raise _ _ _ (Exn KeyError (pretty addr))); [reflexivity|].
  unfold bind at 1. simpl. unfold bind at 1, Mixnet.getitem. rewrite He0. simpl.
  replace fuel with (k + S (fuel - S k))%nat by lia.
  rewrite drive_add, Hreach. simpl fst. simpl snd.
  rewrite drive_S, (hop_relay_unknown _ _ _ _ _ _ _ _ _ Hpeel Hdec Hnone). simpl fst. simpl snd.
  now rewrite drive_terminal.
Qed.

Lemma unknown_next_hop_raises_witness :
  Mixnet._process_message (lib:=Toy.lib) 5 (Toy.mixnet Toy.lib 10)
    [(3, Relay 1); (5, Relay 99)] ("destination_node", "hello") [0; 1] Toy.w0 =
  (Raise (Exn PyException "Error processing message: 99"), Toy.w0).
Proof.
  apply (unknown_next_hop_raises Toy.lib (Toy.mixnet Toy.lib 10) 5 1
           [(3, Relay 1); (5, Relay 99)] ("destination_node", "hello") 0 [1]
           (Mixnet.pki_entry (lib:=Toy.lib) 0 (Some 1) 3)
           (Some 2) ([(5, Relay 99)], ("destination_node", "hello"))
           ([], ("destination_node", "hello")) Toy.w0 Toy.w0 tt (Relay 99) tt 99).
  - vm_compute. reflexivity.
  - vm_compute. reflexivity.
  - reflexivity.
  - reflexivity.
  - vm_compute. reflexivity.
  - lia.
Defined.

(** C4 fails as stated: a relay to the unknown node 99 and a packet that
    fails its peel both end the driver with an exception of the one class
    [Exception]; no [UnreachableNodeError] tells them apart. *)
Lemma unknown_next_hop_raises_counterexample :
  Mixnet._process_message (lib:=Toy.lib) 5 (Toy.mixnet Toy.lib 10)
    [(3, Relay 99)] ("destination_node", "hello") [0] Toy.w0 =
  (Raise (Exn PyException "Error processing message: 99"), Toy.w0) /\
  Mixnet._process_message (lib:=Toy.lib) 5 (Toy.mixnet Toy.lib 10)
    [(4, Relay 1)] ("destination_node", "hello") [0] Toy.w0 =
  (Raise (Exn PyException "Error processing message: MAC mismatch"), Toy.w0).
Proof. vm_compute. auto. Qed.

(** C5: in a registry built by [Mixnet(...)] every public entry has an
    empty private-key field, while the node's private entry holds the key
    behind the same public key; and route selection and packet construction
    read the public registry only: two objects with the same public
    registry give the same route and packet, whatever their private keys. *)
Theorem public_registry_only (lib : SphinxLib) :
  (forall num_nodes w self w' nid e,
     Mixnet.__init__ num_nodes w = (Return self, w') ->
     Mixnet.pkiPub self !! nid = Some e ->
     Mixnet.pki_x e = None /\
     exists sk, Mixnet.pkiPriv self !! nid =
                  Some (Mixnet.pki_entry nid (Some sk) (Mixnet.pki_y e))) /\
  (forall self1 self2 message dest w,
     Mixnet.pkiPub self1 = Mixnet.pkiPub self2 ->
     Mixnet.build_packet self1 message dest w = Mixnet.build_packet self2 message dest w).
Proof.
  split.
  - intros num_nodes w self w' nid e Hinit Hpub.
    destruct (init_inv _ _ _ _ Hinit) as [_ [Hin Hout]].
    destruct (decide (0 <= nid < default 10 num_nodes)) as [Hnid|Hnid].
    + destruct (Hin nid Hnid) as (sk & pk & _ & _ & Hpriv & Hpub').
      rewrite Hpub' in Hpub. injection Hpub as <-. simpl. eauto.
    + destruct (Hout nid Hnid) as [_ H]. congruence.
  - intros self1 self2 message dest w Heq. unfold Mixnet.build_packet.
    now rewrite Heq.
Qed.

Lemma public_registry_only_witness :
  (Mixnet.pki_x (Mixnet.pki_entry (lib:=Toy.lib) 3 None 9) = None /\
   exists sk, Mixnet.pkiPriv (Toy.mixnet Toy.lib 10) !! 3 =
                Some (Mixnet.pki_entry (lib:=Toy.lib) 3 (Some sk)
                        (Mixnet.pki_y (Mixnet.pki_entry (lib:=Toy.lib) 3 None 9)))) /\
  Mixnet.build_packet (lib:=Toy.lib) (Toy.mixnet Toy.lib 10) (PStr "hello")
    "destination_node" (Toy.after 10) =
  Mixnet.build_packet (lib:=Toy.lib)
    {| Mixnet.pkiPriv := ∅; Mixnet.pkiPub := Mixnet.pkiPub (Toy.mixnet Toy.lib 10) |}
    (PStr "hello") "destination_node" (Toy.after 10).
Proof.
  split.
  - apply (proj1 (public_registry_only Toy.lib) (Some 10) Toy.w0 (Toy.mixnet Toy.lib 10)
             (Toy.after 10) 3).
    + vm_compute. reflexivity.
    + vm_compute. reflexivity.
  - apply (proj2 (public_registry_only Toy.lib)). reflexivity.
Defined.

(** C6: on a registry of at least 5 nodes, the route selection of
    [send_message] ([rand_subset(self.pkiPub.keys(), 5)]) returns exactly
    5 node ids, pairwise distinct, each an id of the registry. *)
Theorem route_selection_distinct (lib : SphinxLib) `{!Shuffles lib}
  (self : Mixnet.t) (w : world) :
  (5 <= size (Mixnet.pkiPub self))%nat ->
  exists route,
    Mixnet.rand_subset (Mixnet.keys (Mixnet.pkiPub self)) 5 w =
      (Return route, advance w) /\
    length route = 5%nat /\
    NoDup route /\
    (forall nid, nid ∈ route -> nid ∈ dom (Mixnet.pkiPub self)).
Proof.
  intros Hsize.
  destruct (rand_subset_spec (Mixnet.keys (Mixnet.pkiPub self)) 5 w (keys_NoDup _))
    as (route & Hsel & Hlen & Hnd & Hin).
  rewrite keys_length in Hlen.
  exists route. split; [exact Hsel|]. split; [lia|]. split; [exact Hnd|].
  intros nid Hnid. apply elem_of_keys, Hin, Hnid.
Qed.

Lemma route_selection_distinct_witness :
  exists route,
    Mixnet.rand_subset (lib:=Toy.lib) (Mixnet.keys (Mixnet.pkiPub (Toy.mixnet Toy.lib 10)))
      5 (Toy.after 10) =
      (Return route, advance (Toy.after 10)) /\
    length route = 5%nat /\
    NoDup route /\
    (forall nid, nid ∈ route -> nid ∈ dom (Mixnet.pkiPub (Toy.mixnet Toy.lib 10))).
Proof.
  apply (@route_selection_distinct Toy.lib ToyLaws.shuffles (Toy.mixnet Toy.lib 10)
           (Toy.after 10)).
  vm_compute. lia.
Defined.

(** C7, as the code has it: when the requested path length exceeds the
    size of the registry, route selection does not fail; it returns every
    node id of the registry, in a random order, as a shorter route. *)
Theorem route_selection_short (lib : SphinxLib) `{!Shuffles lib}
  (self : Mixnet.t) (nu : nat) (w : world) :
  (size (Mixnet.pkiPub self) < nu)%nat ->
  exists route,
    Mixnet.rand_subset (Mixnet.keys (Mixnet.pkiPub self)) nu w =
      (Return route, advance w) /\
    length route = size (Mixnet.pkiPub self) /\
    route ≡ₚ Mixnet.keys (Mixnet.pkiPub self).
Proof.
  intros Hsize. exists (shuffle (cursor w) (Mixnet.keys (Mixnet.pkiPub self))).
  pose proof (shuffle_perm lib (cursor w) (Mixnet.keys (Mixnet.pkiPub self))) as Hperm.
  split; [|split].
  - unfold Mixnet.rand_subset. rewrite take_ge; [reflexivity|].
    rewrite Hperm, keys_length. lia.
  - now rewrite Hperm, keys_length.
  - exact Hperm.
Qed.

Lemma route_selection_short_witness :
  exists route,
    Mixnet.rand_subset (lib:=Toy.lib) (Mixnet.keys (Mixnet.pkiPub (Toy.mixnet Toy.lib 3)))
      5 (Toy.after 3) =
      (Return route, advance (Toy.after 3)) /\
    length route = size (Mixnet.pkiPub (Toy.mixnet Toy.lib 3)) /\
    route ≡ₚ Mixnet.keys (Mixnet.pkiPub (Toy.mixnet Toy.lib 3)).
Proof.
  apply (@route_selection_short Toy.lib ToyLaws.shuffles (Toy.mixnet Toy.lib 3) 5%nat
           (Toy.after 3)).
  vm_compute. lia.
Defined.

(** C7 fails as stated: path length 6 on a list of 3 ids, and the path
    length 5 of [send_message] on a registry of 3 nodes, both give a route
    of 3 nodes instead of an error, and the send goes through. *)
Lemma route_selection_short_counterexample :
  @Mixnet.rand_subset Toy.lib [0; 1; 2] 6 Toy.w0 = (Return [2; 1; 0], advance Toy.w0) /\
  Mixnet.rand_subset (lib:=Toy.lib) (Mixnet.keys (Mixnet.pkiPub (Toy.mixnet Toy.lib 3))) 5
    (Toy.after 3) =
    (Return [2; 1; 0], advance (Toy.after 3)) /\
  (Mixnet.send_message 5 (Toy.mixnet Toy.lib 3) (PStr "hello") "destination_node"
     (Toy.after 3)).1 = Return "hello".
Proof. vm_compute. auto. Qed.

(** C8, as the code has it: the node count is a parameter of [Mixnet(...)]
    with default 10, and a registry of any size can be asked for; the path
    length is the literal 5 in [send_message]: whatever the caller passes,
    the route has 5 nodes (all the nodes when the registry has fewer). *)
Theorem configuration_constants (lib : SphinxLib) `{!KeyGen lib, !Shuffles lib} :
  (forall w, Mixnet.__init__ None w = Mixnet.__init__ (Some 10) w) /\
  (forall n w, exists self,
     Mixnet.__init__ (Some n) w = (Return self, advance_by (Z.to_nat n) w) /\
     size (Mixnet.pkiPub self) = Z.to_nat n /\
     size (Mixnet.pkiPriv self) = Z.to_nat n) /\
  (forall self message dest w route packet w',
     Mixnet.build_packet self message dest w = (Return (route, packet), w') ->
     length route = Nat.min 5 (size (Mixnet.pkiPub self))).
Proof.
  split; [reflexivity|]. split.
  - intros n w. destruct (init_total (Some n) w) as [self Hinit].
    destruct (init_inv _ _ _ _ Hinit) as [_ Hreg]. simpl in *.
    exists self. split; [exact Hinit|]. split.
    + exact (registry_size _ _ _ Hreg).
    + exact (registry_size_priv _ _ _ Hreg).
  - intros self message dest w route packet w' H.
    exact (build_packet_route_length _ _ _ _ _ _ _ H).
Qed.

Lemma configuration_constants_witness :
  length [0; 1; 2; 4; 8] = Nat.min 5 (size (Mixnet.pkiPub (Toy.mixnet Toy.lib 10))).
Proof.
  apply (proj2 (proj2 (@configuration_constants Toy.lib ToyLaws.keygen ToyLaws.shuffles))
           (Toy.mixnet Toy.lib 10) (PStr "hello") "destination_node" (Toy.after 10)
           [0; 1; 2; 4; 8]
           ([(3, Relay 1); (5, Relay 2); (7, Relay 4); (11, Relay 8); (19, Dest)],
            ("destination_node", "hello"))
           (emit "Message created for destination 'destination_node'."
              (advance_by 2 (Toy.after 10)))).
  vm_compute. reflexivity.
Defined.

(** C8 fails as stated for the path length: on a registry of 10 nodes no
    message, destination or state of the caller makes [send_message] build
    a route of another length than 5. *)
Lemma configuration_constants_counterexample :
  ~ exists message dest w route packet w',
      Mixnet.build_packet (lib:=Toy.lib) (Toy.mixnet Toy.lib 10) message dest w =
        (Return (route, packet), w') /\
      length route <> 5%nat.
Proof.
  intros (message & dest & w & route & packet & w' & Hbuild & Hlen).
  apply Hlen.
  rewrite (build_packet_route_length (Shuffles0:=ToyLaws.shuffles) _ _ _ _ _ _ _ Hbuild).
  vm_compute. reflexivity.
Qed.

(** C9, where the code breaks it: a request whose body is not JSON makes
    [request.json()] raise; the [except] branch builds its response from
    the exception object, which [JSONResponse] cannot render, and the
    [TypeError] leaves the handler.  The same happens on every failure
    inside the [try] block: the handler answers with status 200 only when
    nothing failed. *)
Theorem mix_failure_escapes (lib : SphinxLib) (fuel : nat) (w : world) :
  mix_incoming_messages fuel
    {| request_json :=
         Err (Exn JSONDecodeError "Expecting value: line 1 column 1 (char 0)") |} w =
  (Raise (Exn TypeError "Object of type JSONDecodeError is not JSON serializable"), w) /\
  forall request,
    match (mix_incoming_messages fuel request w).1 with
    | Return r =>
        status_code r = 200 /\
        exists received, content r = PDict [("data", PStr received)]
    | Raise e =>
        exists cls,
          e = Exn TypeError ("Object of type " ++ cls ++ " is not JSON serializable")
    | OutOfFuel => True
    end.
Proof.
  split; [reflexivity|].
  intros request. unfold mix_incoming_messages, try_except.
  destruct (bind (mix_setup request) _ w) as [[r|e|] w1] eqn:Hbody; simpl.
  - apply bind_inv in Hbody as ([message mixnet] & w2 & _ & H).
    apply bind_inv in H as (received & w3 & _ & H).
    destruct (truthy received); injection H as <- <-; simpl; eauto.
  - eexists. reflexivity.
  - exact I.
Qed.




(** ** Further properties of the code *)

(** *** The registry [Mixnet(...)] builds *)

(** When [Mixnet(num_nodes)] returns, the public and the private registry
    hold exactly the ids [0 .. num_nodes - 1] (none when the count is zero
    or negative); the public entry of a node carries its id, no private key
    and the public key that the private entry derives from the secret of the
    node's own draw; and the constructor has made one draw per node. *)
Theorem init_registry_shape (lib : SphinxLib) (num_nodes : option Z)
  (w : world) (self : Mixnet.t) (w' : world) :
  Mixnet.__init__ num_nodes w = (Return self, w') ->
  w' = advance_by (Z.to_nat (default 10 num_nodes)) w /\
  dom (Mixnet.pkiPub self) = dom (Mixnet.pkiPriv self) /\
  (forall nid, nid ∈ dom (Mixnet.pkiPub self) <-> 0 <= nid < default 10 num_nodes) /\
  size (Mixnet.pkiPub self) = Z.to_nat (default 10 num_nodes) /\
  (forall nid pub,
     Mixnet.pkiPub self !! nid = Some pub ->
     Mixnet.pki_id pub = nid /\
     Mixnet.pki_x pub = None /\
     exists sk,
       gensecret (cursor w + Z.to_nat nid)%nat = Ok sk /\
       expon_g sk = Ok (Mixnet.pki_y pub) /\
       Mixnet.pkiPriv self !! nid =
         Some (Mixnet.pki_entry nid (Some sk) (Mixnet.pki_y pub))).
Proof.
  intros Hinit. destruct (init_inv _ _ _ _ Hinit) as [-> Hreg].
  split; [reflexivity|]. split; [|split; [|split]].
  - apply set_eq. intros nid. rewrite !elem_of_dom.
    destruct Hreg as [Hin Hout].
    destruct (decide (0 <= nid < default 10 num_nodes)) as [Hnid|Hnid].
    + destruct (Hin nid Hnid) as (sk & pk & _ & _ & -> & ->). split; eauto.
    + destruct (Hout nid Hnid) as [-> ->]. split; intros [? ?]; discriminate.
  - intros nid. exact (registry_dom _ _ _ nid Hreg).
  - exact (registry_size _ _ _ Hreg).
  - intros nid pub Hpub. destruct Hreg as [Hin Hout].
    destruct (decide (0 <= nid < default 10 num_nodes)) as [Hnid|Hnid].
    + destruct (Hin nid Hnid) as (sk & pk & Hsk & Hpk & Hpriv & Hpub').
      rewrite Hpub' in Hpub. injection Hpub as <-. simpl. eauto 10.
    + destruct (Hout nid Hnid) as [_ H]. congruence.
Qed.

Lemma init_registry_shape_witness :
  Toy.after 3 = advance_by (Z.to_nat 3) Toy.w0 /\
  dom (Mixnet.pkiPub (Toy.mixnet Toy.lib 3)) = dom (Mixnet.pkiPriv (Toy.mixnet Toy.lib 3)) /\
  (forall nid, nid ∈ dom (Mixnet.pkiPub (Toy.mixnet Toy.lib 3)) <-> 0 <= nid < 3) /\
  size (Mixnet.pkiPub (Toy.mixnet Toy.lib 3)) = Z.to_nat 3 /\
  (forall nid pub,
     Mixnet.pkiPub (Toy.mixnet Toy.lib 3) !! nid = Some pub ->
     Mixnet.pki_id pub = nid /\
     Mixnet.pki_x pub = None /\
     exists sk,
       gensecret (SphinxLib:=Toy.lib) (cursor Toy.w0 + Z.to_nat nid)%nat = Ok sk /\
       expon_g (SphinxLib:=Toy.lib) sk = Ok (Mixnet.pki_y pub) /\
       Mixnet.pkiPriv (Toy.mixnet Toy.lib 3) !! nid =
         Some (Mixnet.pki_entry nid (Some sk) (Mixnet.pki_y pub))).
Proof.
  apply (init_registry_shape Toy.lib (Some 3) Toy.w0 (Toy.mixnet Toy.lib 3) (Toy.after 3)).
  vm_compute. reflexivity.
Defined.

(** Key generation failing at a draw: the secret cannot be drawn, or its
    public key cannot be derived. *)
Definition keygen_fails (lib : SphinxLib) (c : nat) (e : exn) : Prop :=
  gensecret c = Err e \/ exists s, gensecret c = Ok s /\ expon_g s = Err e.

Lemma initialize_loop_fails (lib : SphinxLib) ids : forall k self w e,
  (k < length ids)%nat ->
  (forall i, (i < k)%nat ->
     exists s y, gensecret (cursor w + i)%nat = Ok s /\ expon_g s = Ok y) ->
  keygen_fails lib (cursor w + k)%nat e ->
  Mixnet.initialize_loop ids self w = (Raise e, advance_by (S k) w).
Proof.
  induction ids as [|nid ids IH]; intros k self w e Hk Hok Hfail; [simpl in Hk; lia|].
  simpl. unfold bind at 1, Mixnet.draw_secret. destruct k as [|k].
  - rewrite Nat.add_0_r in Hfail. destruct Hfail as [Hs|(s & Hs & Hy)]; rewrite Hs.
    + reflexivity.
    + unfold bind at 1. now rewrite Hy.
  - destruct (Hok 0%nat) as (s & y & Hs & Hy); [lia|].
    rewrite Nat.add_0_r in Hs. rewrite Hs. unfold bind at 1. rewrite Hy. simpl.
    apply IH.
    + simpl in Hk. lia.
    + intros i Hi. destruct (Hok (S i)) as (s' & y' & Hs' & Hy'); [lia|].
      exists s', y'. simpl. now replace (S (cursor w + i)) with (cursor w + S i)%nat by lia.
    + simpl. now replace (S (cursor w + k)) with (cursor w + S k)%nat by lia.
Qed.

(** [Mixnet(num_nodes)] is all or nothing: once the parameters are built,
    when the key generation of a node fails, after that of the nodes before
    it went through, the constructor raises [RuntimeError] with the text of
    the failure behind the two prefixes of [__init__] and
    [_initialize_nodes], and no object with part of the registry comes
    back. *)
Theorem init_first_failure (lib : SphinxLib) (num_nodes : option Z)
  (w : world) (k : nat) (e : exn) :
  SphinxParams = Ok tt ->
  Z.of_nat k < default 10 num_nodes ->
  (forall i, (i < k)%nat ->
     exists s y, gensecret (cursor w + i)%nat = Ok s /\ expon_g s = Ok y) ->
  keygen_fails lib (cursor w + k)%nat e ->
  Mixnet.__init__ num_nodes w =
    (Raise (Exn RuntimeError
              ("Error initializing Mixnet: Error initializing nodes: " ++ exn_str e)),
     advance_by (S k) w).
Proof.
  intros Hparams Hk Hok Hfail. unfold Mixnet.__init__, Mixnet._initialize_nodes.
  erewrite (try_Raise _ _ _ (Exn PyException ("Error initializing nodes: " ++ exn_str e)));
    [reflexivity|].
  erewrite bind_Return; [|apply lift_Ok, Hparams].
  erewrite (try_Raise _ _ _ e); [reflexivity|].
  apply initialize_loop_fails; [rewrite length_seqZ; lia|exact Hok|exact Hfail].
Qed.

Lemma init_first_failure_witness :
  Mixnet.__init__ (lib:=Faulty.dry) None Toy.w0 =
    (Raise (Exn RuntimeError
              "Error initializing Mixnet: Error initializing nodes: no entropy"),
     advance_by 4 Toy.w0).
Proof.
  apply (init_first_failure Faulty.dry None Toy.w0 3 (Exn SphinxException "no entropy")).
  - reflexivity.
  - simpl. lia.
  - intros i Hi. simpl.
    destruct i as [|[|[|i]]]; [eexists _, _; split; reflexivity..|lia].
  - left. reflexivity.
Defined.

(** Whatever goes wrong inside [Mixnet(...)], the caller sees one kind of
    error, a [RuntimeError] whose text starts with the prefix of
    [__init__].  When the parameters cannot be built the text of that
    failure follows at once, and no draw was made; when they were built,
    the failure is one of key generation and the prefix of
    [_initialize_nodes] comes in between. *)
Theorem init_outcome (lib : SphinxLib) (num_nodes : option Z) (w : world) :
  (forall e,
     SphinxParams = Err e ->
     Mixnet.__init__ num_nodes w =
       (Raise (Exn RuntimeError ("Error initializing Mixnet: " ++ exn_str e)), w)) /\
  (forall e w',
     Mixnet.__init__ num_nodes w = (Raise e, w') ->
     exn_class e = RuntimeError /\
     exists cause,
       exn_str e = "Error initializing Mixnet: " ++ cause /\
       (SphinxParams = Ok tt ->
        exists text, cause = "Error initializing nodes: " ++ text)).
Proof.
  split.
  - intros e He. unfold Mixnet.__init__.
    erewrite (try_Raise _ _ _ e); [reflexivity|]. apply bind_Raise, lift_Err, He.
  - intros e w'. unfold Mixnet.__init__, Mixnet._initialize_nodes, try_except, bind.
    destruct SphinxParams as [[]|e0]; simpl.
    + destruct (Mixnet.initialize_loop _ _ w) as [[self|e1|] w1]; simpl;
        intros [= <- <-]. simpl. split; [reflexivity|].
      eexists. split; [reflexivity|]. intros _. eexists. reflexivity.
    + intros [= <- <-]. simpl. split; [reflexivity|].
      eexists. split; [reflexivity|]. discriminate.
Qed.

Lemma init_outcome_witness :
  Mixnet.__init__ (lib:=Faulty.noparams) None Toy.w0 =
    (Raise (Exn RuntimeError "Error initializing Mixnet: no such curve"), Toy.w0).
Proof.
  apply (proj1 (init_outcome Faulty.noparams None Toy.w0)
           (Exn SphinxException "no such curve")).
  reflexivity.
Defined.

(** *** [send_message] *)

(** For every registry [Mixnet(num_nodes)] built with at least one node and
    every message and destination that have an encoding and fit the
    payload, under the round-trip contract of the library: the route has
    [min(5, num_nodes)] distinct nodes, the send makes two random draws,
    prints its two lines and returns the message it was given, as soon as
    the loop may run one iteration per node of the route. *)
Theorem send_round_trip (lib : SphinxLib) `{!Shuffles lib, !RoundTrip lib}
  (num_nodes : option Z) (w0 w1 w : world) (self : Mixnet.t)
  (msg dest : string) (fuel : nat) :
  Mixnet.__init__ num_nodes w0 = (Return self, w1) ->
  1 <= default 10 num_nodes ->
  utf8_valid dest = true ->
  utf8_valid msg = true ->
  payload_fits dest msg = true ->
  (Nat.min 5 (Z.to_nat (default 10%Z num_nodes)) <= fuel)%nat ->
  exists route packet,
    Mixnet.build_packet self (PStr msg) dest w =
      (Return (route, packet), emit (created_line dest) (advance (advance w))) /\
    length route = Nat.min 5 (Z.to_nat (default 10 num_nodes)) /\
    NoDup route /\
    Mixnet.send_message fuel self (PStr msg) dest w =
      (Return msg,
       emit (received_line dest msg) (emit (created_line dest) (advance (advance w)))).
Proof.
  intros Hinit Hn Hdest Hmsg Hfits Hfuel.
  destruct (init_inv _ _ _ _ Hinit) as [_ Hreg].
  destruct (build_packet_ok _ _ self msg dest w Hreg Hn Hdest Hmsg Hfits)
    as (hops & hdr & dlt & Hbuild & Hlen & Hnd & Hheld & Hchain).
  exists hops.*1, (hdr, dlt). split; [exact Hbuild|].
  split; [now rewrite length_fmap|]. split; [exact Hnd|].
  assert (bytes_decode dest = Ok dest) as Hdd by (unfold bytes_decode; now rewrite Hdest).
  assert (bytes_decode msg = Ok msg) as Hdm by (unfold bytes_decode; now rewrite Hmsg).
  unfold Mixnet.send_message. erewrite try_Return; [reflexivity|].
  erewrite bind_Return; [|exact Hbuild]. simpl.
  apply (process_message_chain self dest msg dest msg hops hdr dlt); auto.
  - intros ->. cbn [length] in Hlen. lia.
  - lia.
Qed.

Lemma send_round_trip_witness :
  exists route packet,
    Mixnet.build_packet (lib:=Toy.lib) (Toy.mixnet Toy.lib 3) (PStr "hi") "there" (Toy.after 3) =
      (Return (route, packet), emit (created_line "there") (advance (advance (Toy.after 3)))) /\
    length route = Nat.min 5 (Z.to_nat (default 10 (Some 3))) /\
    NoDup route /\
    Mixnet.send_message 3 (Toy.mixnet Toy.lib 3) (PStr "hi") "there" (Toy.after 3) =
      (Return "hi",
       emit (received_line "there" "hi")
         (emit (created_line "there") (advance (advance (Toy.after 3))))).
Proof.
  apply (@send_round_trip Toy.lib ToyLaws.shuffles ToyLaws.round_trip (Some 3)
           Toy.w0 (Toy.after 3) (Toy.after 3) (Toy.mixnet Toy.lib 3) "hi" "there" 3%nat).
  - vm_compute. reflexivity.
  - simpl. lia.
  - reflexivity.
  - reflexivity.
  - reflexivity.
  - simpl. lia.
Defined.

(** The ids route selection picks are keys of the public registry, so the
    reading of the public keys cannot miss. *)
Lemma keys_of_total (lib : SphinxLib) (pub : gmap Z Mixnet.PkiEntry) route :
  (forall nid, nid ∈ route -> nid ∈ dom pub) ->
  exists ys, forall w, Mixnet.keys_of pub route w = (Return ys, w).
Proof.
  induction route as [|nid route IH]; intros Hin.
  - now exists [].
  - destruct IH as [ys Hys]; [intros k Hk; apply Hin; now right|].
    destruct (proj1 (elem_of_dom pub nid)) as [e He]; [apply Hin; left|].
    exists (Mixnet.pki_y e :: ys). intros w. simpl.
    unfold bind at 1, Mixnet.getitem. rewrite He. simpl.
    unfold bind at 1. now rewrite Hys.
Qed.

(** A message that is not a [str] (the [None] of a missing field, a number,
    a list, ...) never reaches the library: on any registry the send has
    selected its route, with one random draw, and then fails at
    [message.encode()]; the caller gets a plain [Exception] that names the
    type of the message. *)
Theorem send_rejects_non_str (lib : SphinxLib) `{!Shuffles lib}
  (fuel : nat) (self : Mixnet.t) (message : pyval) (dest : string) (w : world) :
  (forall s, message <> PStr s) ->
  utf8_valid dest = true ->
  Mixnet.send_message fuel self message dest w =
    (Raise (Exn PyException
              ("Error sending message: '" ++ type_name message ++
               "' object has no attribute 'encode'")),
     advance w).
Proof.
  intros Hnot Hdest.
  destruct (rand_subset_spec (Mixnet.keys (Mixnet.pkiPub self)) 5 w (keys_NoDup _))
    as (route & Hsel & _ & _ & Hin).
  destruct (keys_of_total lib (Mixnet.pkiPub self) route) as [ys Hys].
  { intros nid Hnid. apply elem_of_keys, Hin, Hnid. }
  unfold Mixnet.send_message.
  erewrite (try_Raise _ _ _ (no_attribute message "encode")); [reflexivity|].
  apply bind_Raise. unfold Mixnet.build_packet.
  erewrite bind_Return; [|exact Hsel]. simpl.
  erewrite bind_Return; [|apply Hys].
  erewrite bind_Return; [|apply lift_Ok; unfold str_encode; now rewrite Hdest].
  apply bind_Raise, lift_Err.
  destruct message; try reflexivity. now destruct (Hnot s).
Qed.

Lemma send_rejects_non_str_witness :
  Mixnet.send_message (lib:=Toy.lib) 5 (Toy.mixnet Toy.lib 10) (PList [PStr "hello"])
    "destination_node" (Toy.after 10) =
    (Raise (Exn PyException
              "Error sending message: 'list' object has no attribute 'encode'"),
     advance (Toy.after 10)).
Proof.
  apply (@send_rejects_non_str Toy.lib ToyLaws.shuffles 5 (Toy.mixnet Toy.lib 10)
           (PList [PStr "hello"]) "destination_node" (Toy.after 10)).
  - intros s. discriminate.
  - reflexivity.
Defined.

(** A send through an empty registry never delivers: the route is empty,
    and either the library refuses to build a packet for it, or the driver
    fails on the first node of the route that is not there.  Both reach the
    caller as a plain [Exception]. *)
Theorem send_on_empty_registry (lib : SphinxLib) `{!Shuffles lib}
  (fuel : nat) (self : Mixnet.t) (message : pyval) (dest m : string) (w : world) :
  Mixnet.pkiPub self = ∅ ->
  utf8_valid dest = true ->
  py_encode message = Ok m ->
  Mixnet.send_message fuel self message dest w =
    match create_forward_message (S (cursor w)) [] [] dest m with
    | Err e =>
        (Raise (Exn PyException ("Error sending message: " ++ exn_str e)),
         advance (advance w))
    | Ok _ =>
        (Raise (Exn PyException
                  "Error sending message: Error processing message: list index out of range"),
         emit (created_line dest) (advance (advance w)))
    end.
Proof.
  intros Hempty Hdest Hm.
  assert (Mixnet.rand_subset (Mixnet.keys (Mixnet.pkiPub self)) 5 w = (Return [], advance w))
    as Hsel.
  { unfold Mixnet.rand_subset, Mixnet.keys. rewrite Hempty, map_to_list_empty. simpl.
    pose proof (shuffle_perm lib (cursor w) []) as Hperm.
    apply Permutation_nil_r in Hperm. now rewrite Hperm. }
  assert (str_encode dest = Ok dest) as Henc by (unfold str_encode; now rewrite Hdest).
  destruct (create_forward_message (S (cursor w)) [] [] dest m) as [[hdr dlt]|e] eqn:Hc.
  - assert (Mixnet.build_packet self message dest w =
            (Return ([], (hdr, dlt)), emit (created_line dest) (advance (advance w))))
      as Hbuild.
    { unfold Mixnet.build_packet.
      erewrite bind_Return; [|exact Hsel]. simpl.
      erewrite bind_Return; [|reflexivity].
      erewrite bind_Return; [|apply lift_Ok, Henc].
      erewrite bind_Return; [|apply lift_Ok, Hm].
      erewrite bind_Return; [|simpl; rewrite Hc; reflexivity].
      reflexivity. }
    unfold Mixnet.send_message.
    erewrite (try_Raise _ _ _
                (Exn PyException "Error processing message: list index out of range"));
      [reflexivity|].
    erewrite bind_Return; [|exact Hbuild]. reflexivity.
  - unfold Mixnet.send_message. erewrite (try_Raise _ _ _ e); [reflexivity|].
    apply bind_Raise. unfold Mixnet.build_packet.
    erewrite bind_Return; [|exact Hsel]. simpl.
    erewrite bind_Return; [|reflexivity].
    erewrite bind_Return; [|apply lift_Ok, Henc].
    erewrite bind_Return; [|apply lift_Ok, Hm].
    apply bind_Raise. simpl. rewrite Hc. reflexivity.
Qed.

Lemma send_on_empty_registry_witness :
  Mixnet.send_message (lib:=Toy.lib) 5 (Toy.mixnet Toy.lib 0) (PStr "hello")
    "destination_node" Toy.w0 =
    (Raise (Exn PyException "Error sending message: cannot build the packet"),
     advance (advance Toy.w0)).
Proof.
  apply (@send_on_empty_registry Toy.lib ToyLaws.shuffles 5 (Toy.mixnet Toy.lib 0)
           (PStr "hello") "destination_node" "hello" Toy.w0).
  - vm_compute. reflexivity.
  - reflexivity.
  - reflexivity.
Defined.

(** *** [_process_message] *)

(** The relay driver draws no randomness and prints one line at most: when
    [_process_message] returns a message, the only thing it has printed is
    the delivery line that reports this message; when it raises, or is
    still relaying, it has printed nothing. *)
Theorem process_message_effect (lib : SphinxLib) (fuel : nat) (self : Mixnet.t)
  (hdr : header) (dlt : delta) (use_nodes : list Z) (w : world) :
  cursor (Mixnet._process_message fuel self hdr dlt use_nodes w).2 = cursor w /\
  match (Mixnet._process_message fuel self hdr dlt use_nodes w).1 with
  | Return m =>
      exists d,
        stdout (Mixnet._process_message fuel self hdr dlt use_nodes w).2 =
          (stdout w ++ [received_line d m])%list
  | _ => stdout (Mixnet._process_message fuel self hdr dlt use_nodes w).2 = stdout w
  end.
Proof.
  unfold Mixnet._process_message, try_except, bind, Mixnet.first_node, Mixnet.getitem.
  destruct use_nodes as [|n use_nodes]; simpl; [auto|].
  destruct (Mixnet.pkiPriv self !! n) as [e|]; simpl; [|auto].
  destruct (drive_effect fuel self (Mixnet.pki_x e) (hdr, dlt) w) as [Hc Hs].
  destruct (Mixnet.drive fuel self _ w) as [[x p|m|err] w1]; simpl in *; auto.
Qed.

(** No retry: the first exception raised in an iteration of the relay
    loop, whatever raises it (the peel, the decoding of the routing
    command, the lookup of the next private key, the opening of the
    payload or the decoding of its text), ends the session.  After [k]
    iterations that relayed, [_process_message] has run [k + 1] iterations
    and raises a plain [Exception] with the text of that exception behind
    "Error processing message: ". *)
Theorem hop_failure_ends_session (lib : SphinxLib) (self : Mixnet.t)
  (fuel k : nat) (hdr : header) (dlt : delta) (n0 : Z) (route : list Z)
  (e0 : Mixnet.PkiEntry) (x : option secret) (packet : header * delta)
  (w w1 w2 : world) (e : exn) :
  Mixnet.pkiPriv self !! n0 = Some e0 ->
  Mixnet.drive k self (Mixnet.AwaitingHop (Mixnet.pki_x e0) (hdr, dlt)) w =
    (Mixnet.AwaitingHop x packet, w1) ->
  Mixnet.hop_body self x packet w1 = (Raise e, w2) ->
  (k < fuel)%nat ->
  Mixnet._process_message fuel self hdr dlt (n0 :: route) w =
    (Raise (Exn PyException ("Error processing message: " ++ exn_str e)), w2) /\
  Mixnet.hop_count fuel self (Mixnet.AwaitingHop (Mixnet.pki_x e0) (hdr, dlt)) w = S k.
Proof.
  intros He0 Hreach Hbody Hfuel.
  assert (Mixnet.hop self x packet w1 = (Mixnet.Failed e, w2)) as Hhop
    by (unfold Mixnet.hop; now rewrite Hbody).
  replace fuel with (k + S (fuel - S k))%nat by lia. split.
  - unfold Mixnet._process_message. erewrite (try_Raise _ _ _ e); [reflexivity|].
    unfold bind at 1. simpl. unfold bind at 1, Mixnet.getitem. rewrite He0. simpl.
    rewrite drive_add, Hreach. simpl fst. simpl snd.
    rewrite drive_S, Hhop. simpl fst. simpl snd.
    now rewrite drive_terminal.
  - rewrite hop_count_add, Hreach. simpl fst. simpl snd.
    rewrite (hop_count_running k self _ w x packet w1 Hreach) by reflexivity.
    rewrite hop_count_S, Hhop. simpl fst. simpl snd.
    rewrite hop_count_terminal by done. lia.
Qed.

Lemma hop_failure_ends_session_witness :
  Mixnet._process_message (lib:=Toy.lib) 5 (Toy.mixnet Toy.lib 10)
    [(3, Relay 1); (6, Relay 2)] ("destination_node", "hello") [0; 1; 2] Toy.w0 =
    (Raise (Exn PyException "Error processing message: MAC mismatch"), Toy.w0) /\
  Mixnet.hop_count 5 (Toy.mixnet Toy.lib 10) (Toy.at_hop 1 [(3, Relay 1); (6, Relay 2)])
    Toy.w0 = 2%nat.
Proof.
  apply (hop_failure_ends_session Toy.lib (Toy.mixnet Toy.lib 10) 5 1
           [(3, Relay 1); (6, Relay 2)] ("destination_node", "hello") 0 [1; 2]
           (Mixnet.pki_entry (lib:=Toy.lib) 0 (Some 1) 3)
           (Some 2) ([(6, Relay 2)], ("destination_node", "hello"))
           Toy.w0 Toy.w0 Toy.w0 (Exn SphinxException "MAC mismatch")).
  - vm_compute. reflexivity.
  - vm_compute. reflexivity.
  - vm_compute. reflexivity.
  - lia.
Defined.

(** A routing flag that is neither [Relay_flag] nor [Dest_flag] is not an
    error for the loop: neither branch runs, nothing is printed, and the
    next iteration peels the packet this peel returned, with the same
    private key.  So the driver on a packet whose first peel answers with
    such a flag goes on as the driver on the returned packet, with one
    iteration less to go. *)
Theorem other_flag_is_skipped (lib : SphinxLib) (self : Mixnet.t) (fuel : nat)
  (x : option secret) (packet packet' : header * delta)
  (tg : tag) (inf : info) (mac : mac_key) (w : world) :
  sphinx_process x packet.1 packet.2 = Ok (tg, inf, packet', mac) ->
  PFdecode inf = Ok OtherFlag ->
  Mixnet.drive (S fuel) self (Mixnet.AwaitingHop x packet) w =
    Mixnet.drive fuel self (Mixnet.AwaitingHop x packet') w /\
  Mixnet.hop_count (S fuel) self (Mixnet.AwaitingHop x packet) w =
    S (Mixnet.hop_count fuel self (Mixnet.AwaitingHop x packet') w) /\
  (forall n0 route e0,
     Mixnet.pkiPriv self !! n0 = Some e0 ->
     Mixnet.pki_x e0 = x ->
     Mixnet._process_message (S fuel) self packet.1 packet.2 (n0 :: route) w =
       Mixnet._process_message fuel self packet'.1 packet'.2 (n0 :: route) w).
Proof.
  intros Hpeel Hdec.
  pose proof (hop_other self x packet w _ _ _ _ Hpeel Hdec) as Hhop.
  split; [|split].
  - now rewrite drive_S, Hhop.
  - now rewrite hop_count_S, Hhop.
  - intros n0 route e0 He0 <-. destruct packet as [hdr dlt], packet' as [hdr' dlt'].
    unfold Mixnet._process_message, try_except, bind, Mixnet.first_node, Mixnet.getitem.
    simpl. rewrite He0. simpl.
    change (Mixnet.drive (S fuel) self (Mixnet.AwaitingHop (Mixnet.pki_x e0) (hdr, dlt)) w)
      with (let '(st', w') := Mixnet.hop self (Mixnet.pki_x e0) (hdr, dlt) w in
            Mixnet.drive fuel self st' w').
    now rewrite Hhop.
Qed.

Lemma other_flag_is_skipped_witness :
  Mixnet.drive 2 (Toy.mixnet Toy.lib 10) (Toy.at_hop 1 [(3, OtherFlag); (3, Dest)]) Toy.w0 =
    Mixnet.drive 1 (Toy.mixnet Toy.lib 10) (Toy.at_hop 1 [(3, Dest)]) Toy.w0 /\
  Mixnet.hop_count 2 (Toy.mixnet Toy.lib 10) (Toy.at_hop 1 [(3, OtherFlag); (3, Dest)])
    Toy.w0 =
    S (Mixnet.hop_count 1 (Toy.mixnet Toy.lib 10) (Toy.at_hop 1 [(3, Dest)]) Toy.w0) /\
  (forall n0 route e0,
     Mixnet.pkiPriv (Toy.mixnet Toy.lib 10) !! n0 = Some e0 ->
     Mixnet.pki_x e0 = Some 1 ->
     Mixnet._process_message 2 (Toy.mixnet Toy.lib 10) [(3, OtherFlag); (3, Dest)]
       ("destination_node", "hello") (n0 :: route) Toy.w0 =
       Mixnet._process_message 1 (Toy.mixnet Toy.lib 10) [(3, Dest)]
         ("destination_node", "hello") (n0 :: route) Toy.w0).
Proof.
  apply (other_flag_is_skipped Toy.lib (Toy.mixnet Toy.lib 10) 1 (Some 1)
           ([(3, OtherFlag); (3, Dest)], ("destination_node", "hello"))
           ([(3, Dest)], ("destination_node", "hello")) tt OtherFlag tt Toy.w0).
  - reflexivity.
  - reflexivity.
Defined.

(** *** [mix_incoming_messages] *)

(** A request whose JSON body is an object with a [str] under "message",
    one that has an encoding and fits the payload: under the contracts of
    the library the handler builds its registry (10 draws), sends the
    message to "destination_node" (2 draws, 2 lines printed) and answers
    with status 200 and the message under "data".  An empty message is
    delivered like any other, but the answer then is the text
    "Failed to mix message!", still with status 200. *)
Theorem mix_answers (lib : SphinxLib) `{!KeyGen lib, !Shuffles lib, !RoundTrip lib}
  (items : list (string * pyval)) (msg : string) (fuel : nat) (w : world) :
  assoc "message" items = Some (PStr msg) ->
  utf8_valid msg = true ->
  payload_fits "destination_node" msg = true ->
  (5 <= fuel)%nat ->
  mix_incoming_messages fuel {| request_json := Ok (PDict items) |} w =
    (Return {| content :=
                 PDict [("data",
                         PStr (if truthy msg then msg else "Failed to mix message!"))];
               status_code := 200 |},
     emit (received_line "destination_node" msg)
       (emit (created_line "destination_node") (advance (advance (advance_by 10 w))))).
Proof.
  intros Hmsg Hvalid Hfits Hfuel.
  destruct (init_total None w) as [self Hinit].
  destruct (init_inv _ _ _ _ Hinit) as [_ Hreg]. simpl in Hreg, Hinit.
  assert (mix_setup {| request_json := Ok (PDict items) |} w =
          (Return (PStr msg, self), advance_by 10 w)) as Hsetup.
  { unfold mix_setup. erewrite bind_Return; [|reflexivity].
    erewrite bind_Return; [|simpl; rewrite Hmsg; reflexivity].
    erewrite bind_Return; [|exact Hinit]. reflexivity. }
  pose proof (send_delivers (cursor w) 10 self msg "destination_node" (advance_by 10 w) fuel
                Hreg ltac:(lia) eq_refl Hvalid Hfits Hfuel) as Hsend.
  unfold mix_incoming_messages. erewrite try_Return; [reflexivity|].
  erewrite bind_Return; [|exact Hsetup]. simpl.
  erewrite bind_Return; [|exact Hsend].
  now destruct (truthy msg).
Qed.

Lemma mix_answers_witness :
  mix_incoming_messages (lib:=Toy.lib) 5
    {| request_json := Ok (PDict [("message", PStr "")]) |} Toy.w0 =
    (Return {| content := PDict [("data", PStr "Failed to mix message!")];
               status_code := 200 |},
     emit (received_line "destination_node" "")
       (emit (created_line "destination_node") (advance (advance (advance_by 10 Toy.w0))))).
Proof.
  apply (@mix_answers Toy.lib ToyLaws.keygen ToyLaws.shuffles ToyLaws.round_trip
           [("message", PStr "")] "" 5%nat Toy.w0).
  - reflexivity.
  - reflexivity.
  - reflexivity.
  - lia.
Defined.
